(** * garmin-to-notion: the health synchronisation script

    A shallow embedding of [garmin_health.py]: the respiration aggregator
    [get_average_respiration] and the orchestrator [sync_health], with the
    Python values they handle (None, int, float, dict, list), Python's
    arithmetic on them, and the outside world (environment variables, the
    Garmin client, the Notion client, standard output) as an explicit
    record of what each call answers together with a trace of the calls
    that were made. *)

From Stdlib Require Import ZArith List Lia Permutation.
From Stdlib Require Import Floats.PrimFloat Floats.SpecFloat Floats.FloatOps.
From stdpp Require Import gmap strings list.

Local Open Scope Z_scope.

(** ** Exceptions and results *)

(** The exception objects the script meets.  All of them are instances of
    Python's [Exception]; [ServiceError] stands for whatever a client
    library raises (an HTTP error, an authentication failure, ...). *)
Inductive exn : Type :=
| ValueError (msg : string)
| OverflowError (msg : string)
| ZeroDivisionError (msg : string)
| ServiceError (msg : string).

(** [str(e)] *)
Definition exn_str (e : exn) : string :=
  match e with
  | ValueError msg | OverflowError msg | ZeroDivisionError msg
  | ServiceError msg => msg
  end.

(** What evaluating a Python expression gives: a value, or an exception. *)
Inductive result (A : Type) : Type :=
| Ok (a : A)
| Raise (e : exn).
Arguments Ok {A} a.
Arguments Raise {A} e.

(** Sequencing: an exception ends the evaluation. *)
#[global] Instance result_bind : MBind result := fun A B k r =>
  match r with
  | Ok a => k a
  | Raise e => Raise e
  end.

#[global] Instance result_ret : MRet result := fun A a => Ok a.

(** ** Python numbers *)

(** A number is an [int] (unbounded) or a [float] (IEEE 754 binary64, the
    kernel's primitive floats). *)
Inductive number : Type :=
| PyInt (z : Z)
| PyFloat (f : float).

(** The least magnitude that rounds, to nearest even, to 2^1024: above the
    largest finite float (2^1024 - 2^971) by half a unit in the last
    place. *)
Definition float_overflow_bound : Z := 2 ^ 1024 - 2 ^ 970.

(** An integer as a mantissa with exponent 0. *)
Definition Z2SF (z : Z) : spec_float :=
  match z with
  | Z0 => S754_zero false
  | Zpos p => S754_finite false p 0
  | Zneg p => S754_finite true p 0
  end.

(** The float nearest to the integer [z] (ties to even). *)
Definition float_of_Z (z : Z) : float :=
  SF2Prim (binary_normalize prec emax z 0 false).

(** The float nearest to the quotient [a / b] of two integers. *)
Definition float_of_quotient (a b : Z) : float :=
  SF2Prim (SFdiv prec emax (Z2SF a) (Z2SF b)).

(** [float(z)]: OverflowError when the nearest float is not finite. *)
Definition py_float_of_int (z : Z) : result float :=
  if Z.abs z <? float_overflow_bound
  then Ok (float_of_Z z)
  else Raise (OverflowError "int too large to convert to float").

(** [a + b] *)
Definition py_add (a b : number) : result number :=
  match a, b with
  | PyInt x, PyInt y => Ok (PyInt (x + y))
  | PyInt x, PyFloat g =>
      (f ← py_float_of_int x; Ok (PyFloat (f + g)%float))
  | PyFloat f, PyInt y =>
      (g ← py_float_of_int y; Ok (PyFloat (f + g)%float))
  | PyFloat f, PyFloat g => Ok (PyFloat (f + g)%float)
  end.

Definition float_truediv (f g : float) : result float :=
  if (g =? 0)%float
  then Raise (ZeroDivisionError "float division by zero")
  else Ok (f / g)%float.

(** [a / b] (true division): always a float.  Two ints are divided
    exactly and the quotient rounded once.  An int divisor is converted
    to a float, which is zero exactly when the int is. *)
Definition py_truediv (a b : number) : result float :=
  match a, b with
  | PyInt x, PyInt y =>
      if y =? 0 then Raise (ZeroDivisionError "division by zero")
      else if Z.abs x <? Z.abs y * float_overflow_bound
      then Ok (float_of_quotient x y)
      else Raise (OverflowError "integer division result too large for a float")
  | PyInt x, PyFloat g =>
      (f ← py_float_of_int x; float_truediv f g)
  | PyFloat f, PyInt y =>
      if y =? 0 then Raise (ZeroDivisionError "float division by zero")
      else (g ← py_float_of_int y; Ok (f / g)%float)
  | PyFloat f, PyFloat g => float_truediv f g
  end.

(** Truth value of a number: zero (0, 0.0, -0.0) is false. *)
Definition number_truthy (n : number) : bool :=
  match n with
  | PyInt z => negb (z =? 0)
  | PyFloat f => negb (f =? 0)%float
  end.

(** A number that is a zero: the int 0, or a float equal to zero. *)
Definition is_zero (n : number) : Prop :=
  match n with
  | PyInt z => z = 0
  | PyFloat f => (f =? 0)%float = true
  end.

(** The integer nearest to [n / d], ties to even ([0 <= n], [0 < d]). *)
Definition round_half_even (n d : Z) : Z :=
  let q := n / d in
  match 2 * (n mod d) ?= d with
  | Lt => q
  | Gt => q + 1
  | Eq => if Z.even q then q else q + 1
  end.

(** [round(x, ndigits)] for a float and [0 <= ndigits]: the exact value of
    [x] is rounded to [ndigits] decimal places (ties to even) and the
    decimal is read back as the nearest float.  Zeros, infinities and NaN
    round to themselves. *)
Definition py_round (x : float) (ndigits : Z) : float :=
  match Prim2SF x with
  | S754_finite s m e =>
      let p := 10 ^ ndigits in
      let n := if 0 <=? e
               then Zpos m * 2 ^ e * p
               else round_half_even (Zpos m * p) (2 ^ (- e)) in
      let r := float_of_quotient n p in
      if s then (- r)%float else r
  | _ => x
  end.

(** ** Python values and dicts *)

(** The values a record of the fitness service carries: a number or
    [None] (JSON null). *)
Inductive pyval : Type :=
| PyNone
| PyNum (n : number).

(** A [dict] with string keys. *)
Abbreviation dict := (gmap string pyval).

(** [d.get(key)]: [None] when the key is missing. *)
Definition dict_get (d : dict) (key : string) : pyval :=
  default PyNone (d !! key).

(** ** The respiration aggregator *)

(** The body of [for entry in respiration_data], with the two
    accumulators [total] and [count]. *)
Fixpoint respiration_loop (respiration_data : list dict)
    (total : number) (count : Z) : result (number * Z) :=
  match respiration_data with
  | [] => Ok (total, count)
  | entry :: rest =>
      match dict_get entry "averageRespirationValue" with
      | PyNone => respiration_loop rest total count
      | PyNum value =>
          (total' ← py_add total value;
           respiration_loop rest total' (count + 1))
      end
  end.

Definition get_average_respiration (respiration_data : list dict)
    : result (option float) :=
  match respiration_data with
  | [] => Ok None
  | _ =>
      (tc ← respiration_loop respiration_data (PyInt 0) 0;
       let '(total, count) := tc in
       if count =? 0 then Ok None
       else (q ← py_truediv total (PyInt count); Ok (Some q)))
  end.

(** ** The outside world *)

(** [Garmin(email, password)] and [Client(auth=token)]: the client
    objects hold what they were built from (a [str], or [None]). *)
Record garmin_client : Type := Garmin
  { garmin_username : option string; garmin_secret : option string }.

Record notion_client : Type := Client { auth : option string }.

(** The two arguments of [notion.pages.create]: the parent database, the
    "Date" property and one number property. *)
Record page : Type := Page
  { database_id : option string;
    date_start : string;
    number_property : string;
    number_value : number }.

(** The calls that leave the process, in the order they are made. *)
Inductive event : Type :=
| EvLogin (garmin : garmin_client)
| EvGetHeartRates (garmin : garmin_client) (cdate : string)
| EvGetRespirationData (garmin : garmin_client) (cdate : string)
| EvPagesCreate (notion : notion_client) (pg : page)
| EvPrint (line : string).

(** What the outside answers: the environment (after [load_dotenv()]),
    the calendar date, and for each call of a client whether it returns
    or raises. *)
Record world : Type := World
  { environ : gmap string string;
    today_isoformat : string;
    garmin_login : garmin_client -> option exn;
    garmin_get_heart_rates :
      garmin_client -> string -> result (option dict);
    garmin_get_respiration_data :
      garmin_client -> string -> result (option (list dict));
    notion_pages_create : notion_client -> page -> option exn }.

(** A computation of the script: it reads the world, makes calls (the
    trace) and ends with a value or an exception. *)
Definition io (A : Type) : Type := world -> list event * result A.

#[global] Instance io_ret : MRet io := fun A a _ => ([], Ok a).

#[global] Instance io_bind : MBind io := fun A B k m w =>
  match m w with
  | (t1, Ok a) => let '(t2, r) := k a w in (t1 ++ t2, r)
  | (t1, Raise e) => (t1, Raise e)
  end.

Definition raise {A} (e : exn) : io A := fun _ => ([], Raise e).

Definition lift {A} (r : result A) : io A := fun _ => ([], r).

(** [try: body  except Exception as e: handler e] *)
Definition try_except {A} (body : io A) (handler : exn -> io A) : io A :=
  fun w =>
    match body w with
    | (t1, Ok a) => (t1, Ok a)
    | (t1, Raise e) => let '(t2, r) := handler e w in (t1 ++ t2, r)
    end.

Definition getenv (name : string) : io (option string) :=
  fun w => ([], Ok (environ w !! name)).

Definition date_today_isoformat : io string :=
  fun w => ([], Ok (today_isoformat w)).

Definition login (garmin : garmin_client) : io unit :=
  fun w => ([EvLogin garmin],
            match garmin_login w garmin with
            | None => Ok tt
            | Some e => Raise e
            end).

Definition get_heart_rates (garmin : garmin_client) (cdate : string)
    : io (option dict) :=
  fun w => ([EvGetHeartRates garmin cdate],
            garmin_get_heart_rates w garmin cdate).

Definition get_respiration_data (garmin : garmin_client) (cdate : string)
    : io (option (list dict)) :=
  fun w => ([EvGetRespirationData garmin cdate],
            garmin_get_respiration_data w garmin cdate).

Definition pages_create (notion : notion_client) (pg : page) : io unit :=
  fun w => ([EvPagesCreate notion pg],
            match notion_pages_create w notion pg with
            | None => Ok tt
            | Some e => Raise e
            end).

Definition print (line : string) : io unit :=
  fun _ => ([EvPrint line], Ok tt).

(** ** Truth values *)

(** A [str] or [None]: [None] and the empty string are false. *)
Definition str_truthy (s : option string) : bool :=
  match s with
  | None => false
  | Some EmptyString => false
  | Some (String _ _) => true
  end.

(** A dict is false when it is empty. *)
Definition dict_truthy (d : dict) : bool := negb (bool_decide (d = ∅)).

(** A list is false when it is empty. *)
Definition list_truthy {A} (l : list A) : bool :=
  match l with
  | [] => false
  | _ :: _ => true
  end.

(** [all(iterable)] *)
Definition py_all (l : list bool) : bool := forallb id l.

(** ** The orchestrator *)

(** The two messages printed when a fetch raises, and the two printed
    after an upload. *)
Definition heart_rate_fetch_failed (e : exn) : string :=
  "Could not fetch heart‑rate data: " +:+ exn_str e.

Definition respiration_fetch_failed (e : exn) : string :=
  "Could not fetch respiration data: " +:+ exn_str e.

Definition heart_rate_uploaded (today_str : string) : string :=
  "Uploaded heart‑rate data for " +:+ today_str.

Definition respiration_uploaded (today_str : string) : string :=
  "Uploaded respiration data for " +:+ today_str.

(** [resting_hr if resting_hr else 0]: [None] and a zero give the int 0. *)
Definition or_zero (resting_hr : pyval) : number :=
  match resting_hr with
  | PyNum n => if number_truthy n then n else PyInt 0
  | PyNone => PyInt 0
  end.

(** The block under [# --- Heart-rate ---]. *)
Definition heart_rate_block (garmin : garmin_client) (notion : notion_client)
    (today_str : string) (heart_db_id : option string) : io unit :=
  hr_data ← try_except (get_heart_rates garmin today_str)
               (fun e => print (heart_rate_fetch_failed e);; mret None);
  match hr_data with
  | Some hr =>
      if dict_truthy hr && str_truthy heart_db_id then
        (* Resting heart rate is included under 'restingHeartRate' *)
        let resting_hr := dict_get hr "restingHeartRate" in
        (* Create a page in the Heart Rate database *)
        pages_create notion
          (Page heart_db_id today_str "Resting Heart Rate"
             (or_zero resting_hr));;
        print (heart_rate_uploaded today_str)
      else mret tt
  | None => mret tt
  end.

(** The block under [# --- Respiration ---]. *)
Definition respiration_block (garmin : garmin_client)
    (notion : notion_client) (today_str : string)
    (resp_db_id : option string) : io unit :=
  resp_data ← try_except (get_respiration_data garmin today_str)
                 (fun e => print (respiration_fetch_failed e);; mret None);
  match resp_data with
  | Some resp =>
      if list_truthy resp && str_truthy resp_db_id then
        avg_resp ← lift (get_average_respiration resp);
        match avg_resp with
        | Some avg =>
            pages_create notion
              (Page resp_db_id today_str "Average Respiration"
                 (PyFloat (py_round avg 2)));;
            print (respiration_uploaded today_str)
        | None => mret tt
        end
      else mret tt
  | None => mret tt
  end.

Definition missing_credentials : exn :=
  ValueError "Missing Garmin or Notion credentials in environment".

Definition sync_health : io unit :=
  (* Read credentials and database IDs from environment *)
  garmin_email ← getenv "GARMIN_EMAIL";
  garmin_password ← getenv "GARMIN_PASSWORD";
  notion_token ← getenv "NOTION_TOKEN";
  heart_db_id ← getenv "NOTION_HEART_RATE_DB_ID";
  resp_db_id ← getenv "NOTION_RESPIRATION_DB_ID";
  if negb (py_all [str_truthy garmin_email; str_truthy garmin_password;
                   str_truthy notion_token])
  then raise missing_credentials
  else
    (* Log in to Garmin and Notion *)
    let garmin := Garmin garmin_email garmin_password in
    login garmin;;
    let notion := Client notion_token in
    today_str ← date_today_isoformat;
    heart_rate_block garmin notion today_str heart_db_id;;
    respiration_block garmin notion today_str resp_db_id.

(** ** Reading a run *)

(** The client objects a run builds from its environment. *)
Definition garmin_of (w : world) : garmin_client :=
  Garmin (environ w !! "GARMIN_EMAIL") (environ w !! "GARMIN_PASSWORD").

Definition notion_of (w : world) : notion_client :=
  Client (environ w !! "NOTION_TOKEN").

(** The three required values are all present and not empty. *)
Definition credentials_ok (w : world) : bool :=
  str_truthy (environ w !! "GARMIN_EMAIL") &&
  str_truthy (environ w !! "GARMIN_PASSWORD") &&
  str_truthy (environ w !! "NOTION_TOKEN").

(** The same world with another environment. *)
Definition with_environ (w : world) (env : gmap string string) : world :=
  World env (today_isoformat w) (garmin_login w)
    (garmin_get_heart_rates w) (garmin_get_respiration_data w)
    (notion_pages_create w).

(** The calls a run made, and how it ended. *)
Definition trace_of (w : world) : list event := fst (sync_health w).
Definition outcome_of (w : world) : result unit := snd (sync_health w).

(** A call of [notion.pages.create] for the given number property. *)
Definition creates_row (property : string) (ev : event) : Prop :=
  exists notion pg, ev = EvPagesCreate notion pg /\
                    number_property pg = property.

(** The request for the heart-rate row and for the respiration row of a
    run. *)
Definition heart_rate_page (w : world) (hr : dict) : page :=
  Page (environ w !! "NOTION_HEART_RATE_DB_ID") (today_isoformat w)
    "Resting Heart Rate" (or_zero (dict_get hr "restingHeartRate")).

Definition respiration_page (w : world) (avg : float) : page :=
  Page (environ w !! "NOTION_RESPIRATION_DB_ID") (today_isoformat w)
    "Average Respiration" (PyFloat (py_round avg 2)).

(** ** What the aggregator is specified to compute *)

(** The value a record carries, if any: a missing key and a [None] value
    both count as absent. *)
Definition entry_value (entry : dict) : option number :=
  match dict_get entry "averageRespirationValue" with
  | PyNone => None
  | PyNum n => Some n
  end.

(** The present values of a sequence of records, in order. *)
Definition present_values (respiration_data : list dict) : list number :=
  omap entry_value respiration_data.

(** Their sum, added from the left with Python's [+]. *)
Fixpoint py_sum_from (total : number) (values : list number)
    : result number :=
  match values with
  | [] => Ok total
  | v :: rest => total' ← py_add total v; py_sum_from total' rest
  end.

(** Sum of the present values divided by their count. *)
Definition mean_of (values : list number) : result float :=
  total ← py_sum_from (PyInt 0) values;
  py_truediv total (PyInt (Z.of_nat (length values))).

(** The magnitude of the ints of a list of numbers (floats count for
    nothing: adding floats never raises). *)
Definition number_magnitude (n : number) : Z :=
  match n with
  | PyInt z => Z.abs z
  | PyFloat _ => 0
  end.

Fixpoint int_magnitude (values : list number) : Z :=
  match values with
  | [] => 0
  | v :: rest => number_magnitude v + int_magnitude rest
  end.

Definition is_int (n : number) : Prop := exists z, n = PyInt z.

(** The exact sum of the ints of a list of numbers. *)
Fixpoint int_total (values : list number) : Z :=
  match values with
  | [] => 0
  | PyInt z :: rest => z + int_total rest
  | PyFloat _ :: rest => int_total rest
  end.

(** A record with no value: the key is missing, or it holds [None]. *)
Definition field_absent (entry : dict) : Prop :=
  entry !! "averageRespirationValue" = None \/
  entry !! "averageRespirationValue" = Some PyNone.

(** ** Sample data *)

(** [{"averageRespirationValue": v}] *)
Definition respiration_record (v : pyval) : dict :=
  {[ "averageRespirationValue" := v ]}.

(** [[{..: 14}, {..: None}, {..: 16}]] *)
Definition sample_day : list dict :=
  [respiration_record (PyNum (PyInt 14)); respiration_record PyNone;
   respiration_record (PyNum (PyInt 16))].

(** The same records in another order, with a record that has no such
    key at all. *)
Definition sample_day_shuffled : list dict :=
  [respiration_record (PyNum (PyInt 16)); ∅;
   respiration_record (PyNum (PyInt 14)); respiration_record PyNone].

(** The sample day backwards. *)
Definition sample_day_reversed : list dict :=
  [respiration_record (PyNum (PyInt 16)); respiration_record PyNone;
   respiration_record (PyNum (PyInt 14))].

(** The sample day with its absent entries elsewhere. *)
Definition sample_day_interleaved : list dict :=
  [∅; respiration_record (PyNum (PyInt 14)); ∅;
   respiration_record (PyNum (PyInt 16)); respiration_record PyNone].

(** A complete environment. *)
Definition sample_environ : gmap string string :=
  list_to_map
    [("GARMIN_EMAIL", "runner@example.org"); ("GARMIN_PASSWORD", "secret");
     ("NOTION_TOKEN", "ntn-token"); ("NOTION_HEART_RATE_DB_ID", "hr-db");
     ("NOTION_RESPIRATION_DB_ID", "resp-db")].

(** A day on which everything answers: the heart-rate record has no
    resting value, the respiration records are those of the sample day. *)
Definition sample_world : world :=
  World sample_environ "2024-05-01" (fun _ => None)
    (fun _ _ => Ok (Some {[ "restingHeartRate" := PyNone ]}))
    (fun _ _ => Ok (Some sample_day))
    (fun _ _ => None).

(** The same day with the heart-rate request failing. *)
Definition heart_rate_down : world :=
  World sample_environ "2024-05-01" (fun _ => None)
    (fun _ _ => Raise (ServiceError "429 Too Many Requests"))
    (fun _ _ => Ok (Some sample_day))
    (fun _ _ => None).

(** The same day with Notion refusing every page, and a resting value. *)
Definition notion_down : world :=
  World sample_environ "2024-05-01" (fun _ => None)
    (fun _ _ => Ok (Some {[ "restingHeartRate" := PyNum (PyInt 52) ]}))
    (fun _ _ => Ok (Some sample_day))
    (fun _ _ => Some (ServiceError "502 Bad Gateway")).

(** The same day with Notion refusing the respiration page only. *)
Definition respiration_table_down : world :=
  World sample_environ "2024-05-01" (fun _ => None)
    (fun _ _ => Ok (Some {[ "restingHeartRate" := PyNum (PyInt 52) ]}))
    (fun _ _ => Ok (Some sample_day))
    (fun _ pg => if String.eqb (number_property pg) "Average Respiration"
                 then Some (ServiceError "502 Bad Gateway") else None).

(** [[{..: 0.1}, {..: 0.2}, {..: 0.3}]]: the floats nearest to the three
    decimals, as Python reads them. *)
Definition tenths_ascending : list dict :=
  [respiration_record (PyNum (PyFloat 0x1.999999999999ap-4));
   respiration_record (PyNum (PyFloat 0x1.999999999999ap-3));
   respiration_record (PyNum (PyFloat 0x1.3333333333333p-2))].

(** [[{..: 0.3}, {..: 0.2}, {..: 0.1}]] *)
Definition tenths_descending : list dict :=
  [respiration_record (PyNum (PyFloat 0x1.3333333333333p-2));
   respiration_record (PyNum (PyFloat 0x1.999999999999ap-3));
   respiration_record (PyNum (PyFloat 0x1.999999999999ap-4))].

(** ** Reading a trace *)

Definition is_float (n : number) : Prop := exists f, n = PyFloat f.

(** The floats of a list of numbers, in order. *)
Fixpoint floats_of (values : list number) : list float :=
  match values with
  | [] => []
  | PyFloat f :: rest => f :: floats_of rest
  | PyInt _ :: rest => floats_of rest
  end.

(** The kinds of call. *)
Definition is_login (ev : event) : bool :=
  match ev with EvLogin _ => true | _ => false end.

Definition is_get_heart_rates (ev : event) : bool :=
  match ev with EvGetHeartRates _ _ => true | _ => false end.

Definition is_get_respiration_data (ev : event) : bool :=
  match ev with EvGetRespirationData _ _ => true | _ => false end.

Definition is_pages_create (property : string) (ev : event) : bool :=
  match ev with
  | EvPagesCreate _ pg => String.eqb (number_property pg) property
  | _ => false
  end.

(** How often a kind of call was made. *)
Definition calls (kind : event -> bool) (trace : list event) : nat :=
  length (filter (fun ev => kind ev = true) trace).

(** A call of the heart-rate block, and one of the respiration block,
    told apart by what is called (a printed line may be of either). *)
Definition heart_rate_event (ev : event) : Prop :=
  match ev with
  | EvGetHeartRates _ _ | EvPrint _ => True
  | EvPagesCreate _ pg => number_property pg = "Resting Heart Rate"
  | _ => False
  end.

Definition respiration_event (ev : event) : Prop :=
  match ev with
  | EvGetRespirationData _ _ | EvPrint _ => True
  | EvPagesCreate _ pg => number_property pg = "Average Respiration"
  | _ => False
  end.

(** The call is made on the clients built from the environment, for the
    date of the run. *)
Definition configured_call (w : world) (ev : event) : Prop :=
  match ev with
  | EvLogin garmin => garmin = garmin_of w
  | EvGetHeartRates garmin cdate | EvGetRespirationData garmin cdate =>
      garmin = garmin_of w /\ cdate = today_isoformat w
  | EvPagesCreate notion pg =>
      notion = notion_of w /\ date_start pg = today_isoformat w
  | EvPrint _ => True
  end.

(** The heart-rate upload is made and Notion answers it with [e]. *)
Definition heart_rate_upload_raises (w : world) (e : exn) : Prop :=
  exists hr,
    garmin_get_heart_rates w (garmin_of w) (today_isoformat w)
      = Ok (Some hr) /\
    dict_truthy hr = true /\
    str_truthy (environ w !! "NOTION_HEART_RATE_DB_ID") = true /\
    notion_pages_create w (notion_of w) (heart_rate_page w hr) = Some e.

(** The respiration upload is made and Notion answers it with [e]. *)
Definition respiration_upload_raises (w : world) (e : exn) : Prop :=
  exists resp avg,
    garmin_get_respiration_data w (garmin_of w) (today_isoformat w)
      = Ok (Some resp) /\
    list_truthy resp = true /\
    str_truthy (environ w !! "NOTION_RESPIRATION_DB_ID") = true /\
    get_average_respiration resp = Ok (Some avg) /\
    notion_pages_create w (notion_of w) (respiration_page w avg) = Some e.

(** The aggregator is called on the fetched records and raises [e]. *)
Definition aggregation_raises (w : world) (e : exn) : Prop :=
  exists resp,
    garmin_get_respiration_data w (garmin_of w) (today_isoformat w)
      = Ok (Some resp) /\
    list_truthy resp = true /\
    str_truthy (environ w !! "NOTION_RESPIRATION_DB_ID") = true /\
    get_average_respiration resp = Raise e.

(** A fetch that brought nothing: [None], an empty dict, a list (empty
    or not) of records that carry no value. *)
Definition no_heart_rate_data (r : result (option dict)) : Prop :=
  r = Ok None \/ r = Ok (Some ∅).

Definition no_respiration_data (r : result (option (list dict))) : Prop :=
  r = Ok None \/
  exists resp, r = Ok (Some resp) /\ Forall field_absent resp.


(** More sample data: an int too large for a float, and three floats. *)
Definition huge_day : list dict :=
  [respiration_record (PyNum (PyInt (2 ^ 1024)))].

(** A day on which both fetches answer and Notion accepts both pages. *)
Definition full_world : world :=
  World sample_environ "2024-05-01" (fun _ => None)
    (fun _ _ => Ok (Some {[ "restingHeartRate" := PyNum (PyInt 52) ]}))
    (fun _ _ => Ok (Some sample_day))
    (fun _ _ => None).

(** The same day with the log-in refused. *)
Definition login_refused : world :=
  World sample_environ "2024-05-01"
    (fun _ => Some (ServiceError "401 Unauthorized"))
    (fun _ _ => Ok (Some {[ "restingHeartRate" := PyNum (PyInt 52) ]}))
    (fun _ _ => Ok (Some sample_day))
    (fun _ _ => None).

(** The same day with the respiration request failing. *)
Definition respiration_down : world :=
  World sample_environ "2024-05-01" (fun _ => None)
    (fun _ _ => Ok (Some {[ "restingHeartRate" := PyNum (PyInt 52) ]}))
    (fun _ _ => Raise (ServiceError "503 Service Unavailable"))
    (fun _ _ => None).

(** A day without data: an empty heart-rate dict, respiration records
    without a value. *)
Definition empty_day : world :=
  World sample_environ "2024-05-01" (fun _ => None)
    (fun _ _ => Ok (Some ∅))
    (fun _ _ => Ok (Some [∅; respiration_record PyNone]))
    (fun _ _ => None).

(** A day whose respiration values cannot be averaged. *)
Definition huge_world : world :=
  World sample_environ "2024-05-01" (fun _ => None)
    (fun _ _ => Ok None)
    (fun _ _ => Ok (Some huge_day))
    (fun _ _ => None).

(** [[{..: 14}, {..: 15}, {..: 15}]]: the mean, 44 / 3, is
    14.666666666666666 and has more than two decimals. *)
Definition thirds_day : list dict :=
  [respiration_record (PyNum (PyInt 14));
   respiration_record (PyNum (PyInt 15));
   respiration_record (PyNum (PyInt 15))].

(** A day with those respiration records. *)
Definition thirds_world : world :=
  World sample_environ "2024-05-01" (fun _ => None)
    (fun _ _ => Ok (Some {[ "restingHeartRate" := PyNum (PyInt 52) ]}))
    (fun _ _ => Ok (Some thirds_day))
    (fun _ _ => None).

(** A day whose heart-rate record holds the float 0.0, beside another
    key. *)
Definition resting_zero_world : world :=
  World sample_environ "2024-05-01" (fun _ => None)
    (fun _ _ => Ok (Some (<[ "maxHeartRate" := PyNum (PyInt 143) ]>
                            {[ "restingHeartRate" := PyNum (PyFloat 0) ]})))
    (fun _ _ => Ok (Some sample_day))
    (fun _ _ => None).

(** * Properties of the aggregator *)

Section Aggregator.

Implicit Types (l : list dict) (vs : list number) (total : number).

Lemma present_values_cons_absent entry l :
  entry_value entry = None ->
  present_values (entry :: l) = present_values l.
Proof. intros H. unfold present_values. cbn. now rewrite H. Qed.

Lemma present_values_cons_present entry n l :
  entry_value entry = Some n ->
  present_values (entry :: l) = n :: present_values l.
Proof. intros H. unfold present_values. cbn. now rewrite H. Qed.

Lemma present_values_app l1 l2 :
  present_values (l1 ++ l2) = present_values l1 ++ present_values l2.
Proof. apply omap_app. Qed.

(** The loop adds the present values to [total] from the left and
    counts them. *)
Lemma respiration_loop_spec l : forall total count,
  respiration_loop l total count =
    (t ← py_sum_from total (present_values l);
     Ok (t, count + Z.of_nat (length (present_values l)))).
Proof.
  induction l as [|entry rest IH]; intros total count.
  - cbn. now rewrite Z.add_0_r.
  - cbn [respiration_loop].
    destruct (entry_value entry) as [n|] eqn:E.
    + rewrite (present_values_cons_present _ _ _ E).
      unfold entry_value in E.
      destruct (dict_get entry "averageRespirationValue") as [|value];
        [discriminate|].
      injection E as ->. cbn [py_sum_from].
      destruct (py_add total n) as [t'|e]; cbn; [|reflexivity].
      rewrite IH.
      destruct (py_sum_from t' (present_values rest)); cbn; [|reflexivity].
      do 2 f_equal. lia.
    + rewrite (present_values_cons_absent _ _ E).
      unfold entry_value in E.
      destruct (dict_get entry "averageRespirationValue");
        [apply IH|discriminate].
Qed.

(** The aggregator depends on the records only through their present
    values. *)
Lemma get_average_respiration_spec l :
  get_average_respiration l =
    match present_values l with
    | [] => Ok None
    | vs => q ← mean_of vs; Ok (Some q)
    end.
Proof.
  destruct l as [|entry rest]; [reflexivity|].
  unfold get_average_respiration. rewrite respiration_loop_spec.
  set (vs := present_values (entry :: rest)). unfold mean_of.
  destruct vs as [|v vs'] eqn:E.
  - reflexivity.
  - destruct (py_sum_from (PyInt 0) (v :: vs')) as [t|e]; cbn; [|reflexivity].
    destruct (Z.eqb_spec (0 + Z.of_nat (S (length vs'))) 0) as [H|_]; [lia|].
    rewrite Z.add_0_l. reflexivity.
Qed.

(** *** When the arithmetic returns *)

Lemma float_overflow_bound_pos : 0 < float_overflow_bound.
Proof. reflexivity. Qed.

Lemma py_float_of_int_returns z :
  Z.abs z < float_overflow_bound ->
  py_float_of_int z = Ok (float_of_Z z).
Proof.
  intros H. unfold py_float_of_int.
  destruct (Z.ltb_spec (Z.abs z) float_overflow_bound); [reflexivity|lia].
Qed.

Lemma int_magnitude_nonneg vs : 0 <= int_magnitude vs.
Proof.
  induction vs as [|[z|f] vs IH]; cbn [int_magnitude number_magnitude]; lia.
Qed.

(** Ints whose magnitudes add up to less than the overflow bound can be
    summed, whatever floats stand between them. *)
Lemma py_sum_from_returns vs : forall total,
  number_magnitude total + int_magnitude vs < float_overflow_bound ->
  exists t, py_sum_from total vs = Ok t /\
            number_magnitude t <= number_magnitude total + int_magnitude vs.
Proof.
  induction vs as [|v vs IH]; intros total H.
  - exists total. cbn. split; [reflexivity|lia].
  - cbn [int_magnitude] in *. cbn [py_sum_from].
    pose proof (int_magnitude_nonneg vs) as Hvs.
    assert (exists t', py_add total v = Ok t' /\
              number_magnitude t' <= number_magnitude total + number_magnitude v)
      as (t' & -> & Ht').
    { destruct total as [a|f], v as [b|g]; cbn [py_add number_magnitude] in *.
      - eexists. split; [reflexivity|]. cbn. lia.
      - rewrite py_float_of_int_returns by lia. eexists. split; [reflexivity|].
        cbn. lia.
      - rewrite py_float_of_int_returns by lia. eexists. split; [reflexivity|].
        cbn. lia.
      - eexists. split; [reflexivity|]. cbn. lia. }
    cbn. destruct (IH t') as (t & Ht & Hle); [lia|].
    exists t. split; [exact Ht|lia].
Qed.

Lemma mean_of_returns vs :
  vs <> [] ->
  int_magnitude vs < float_overflow_bound ->
  Z.of_nat (length vs) < float_overflow_bound ->
  exists q, mean_of vs = Ok q.
Proof.
  intros Hne Hmag Hlen. unfold mean_of.
  destruct (py_sum_from_returns vs (PyInt 0)) as (t & -> & Ht);
    [cbn; lia|].
  cbn in Ht. cbn.
  assert (0 < Z.of_nat (length vs)) as Hpos by (destruct vs; [easy|cbn; lia]).
  destruct t as [a|f]; cbn [py_truediv number_magnitude] in *.
  - destruct (Z.eqb_spec (Z.of_nat (length vs)) 0); [lia|].
    destruct (Z.ltb_spec (Z.abs a)
                (Z.abs (Z.of_nat (length vs)) * float_overflow_bound));
      [eauto|nia].
  - destruct (Z.eqb_spec (Z.of_nat (length vs)) 0); [lia|].
    rewrite py_float_of_int_returns by lia. cbn. eauto.
Qed.

(** The aggregator returns whenever the magnitudes of the int values add
    up to less than the overflow bound of a float (and the records are
    fewer than that bound). *)
Lemma get_average_respiration_returns l :
  int_magnitude (present_values l) < float_overflow_bound ->
  Z.of_nat (length (present_values l)) < float_overflow_bound ->
  exists r, get_average_respiration l = Ok r.
Proof.
  intros Hmag Hlen. rewrite get_average_respiration_spec.
  destruct (present_values l) as [|v vs] eqn:E; [eauto|].
  destruct (mean_of_returns (v :: vs)) as (q & ->);
    [discriminate|exact Hmag|exact Hlen|].
  cbn. eauto.
Qed.

(** *** Int values are summed exactly *)

Lemma py_sum_from_ints vs : forall a,
  Forall is_int vs ->
  py_sum_from (PyInt a) vs = Ok (PyInt (a + int_total vs)).
Proof.
  induction vs as [|v vs IH]; intros a Hall.
  - cbn. now rewrite Z.add_0_r.
  - apply Forall_cons in Hall as [[z ->] Hall].
    cbn. rewrite (IH _ Hall). do 2 f_equal. lia.
Qed.

Lemma int_total_Permutation vs vs' :
  Permutation vs vs' -> int_total vs = int_total vs'.
Proof.
  induction 1 as [|v vs vs' _ IH|v v' vs|vs vs' vs'' _ IH1 _ IH2].
  - reflexivity.
  - destruct v; cbn; lia.
  - destruct v, v'; cbn; lia.
  - congruence.
Qed.

Lemma present_values_Permutation l l' :
  Permutation l l' -> Permutation (present_values l) (present_values l').
Proof. intros H. unfold present_values. now rewrite H. Qed.

Lemma field_absent_get entry :
  field_absent entry <-> dict_get entry "averageRespirationValue" = PyNone.
Proof.
  unfold field_absent, dict_get.
  destruct (entry !! "averageRespirationValue") as [[|n]|]; cbn;
    split; intros H; try reflexivity; try discriminate; auto.
  destruct H; discriminate.
Qed.

Lemma field_absent_value entry :
  field_absent entry -> entry_value entry = None.
Proof.
  intros H%field_absent_get. unfold entry_value. now rewrite H.
Qed.

Lemma present_values_absent l :
  Forall field_absent l -> present_values l = [].
Proof.
  induction 1 as [|entry l H _ IH]; [reflexivity|].
  now rewrite (present_values_cons_absent _ _ (field_absent_value _ H)).
Qed.

(** Summing and dividing by a positive count can only fail by overflow. *)
Lemma py_add_raises a b e :
  py_add a b = Raise e -> exists msg, e = OverflowError msg.
Proof.
  unfold py_add, py_float_of_int.
  destruct a as [x|f], b as [y|g]; try discriminate;
    [destruct (Z.abs x <? float_overflow_bound)
    |destruct (Z.abs y <? float_overflow_bound)];
    cbn; try discriminate; intros [= <-]; eauto.
Qed.

Lemma py_sum_from_raises vs : forall total e,
  py_sum_from total vs = Raise e -> exists msg, e = OverflowError msg.
Proof.
  induction vs as [|v vs IH]; intros total e; cbn; [discriminate|].
  destruct (py_add total v) as [t'|e'] eqn:E; cbn.
  - apply IH.
  - intros [= <-]. eapply py_add_raises, E.
Qed.

Lemma mean_of_raises vs e :
  vs <> [] -> mean_of vs = Raise e -> exists msg, e = OverflowError msg.
Proof.
  intros Hne. unfold mean_of.
  destruct (py_sum_from (PyInt 0) vs) as [t|e'] eqn:E; cbn.
  - assert (Z.of_nat (length vs) <> 0) as Hlen by (destruct vs; [easy|cbn; lia]).
    apply Z.eqb_neq in Hlen.
    destruct t as [a|f]; cbn; rewrite Hlen.
    + destruct (_ <? _); [discriminate|]. intros [= <-]. eauto.
    + unfold py_float_of_int. destruct (_ <? _); cbn; [discriminate|].
      intros [= <-]. eauto.
  - intros [= <-]. eapply py_sum_from_raises, E.
Qed.

End Aggregator.

(** * The claims about the aggregator *)

(** C1. For a sequence of records with at least one present value, the
    aggregator's outcome is that of adding the present values (from the
    left, starting at the int 0, with Python's [+]) and dividing the sum
    by their count with Python's [/]: nothing else is done to the
    quotient, it is returned as it is.  The call returns whenever the int
    values fit a float. *)
Theorem get_average_respiration_mean (respiration_data : list dict)
    (Hpresent : exists entry n,
        In entry respiration_data /\
        dict_get entry "averageRespirationValue" = PyNum n) :
  let values := present_values respiration_data in
  let count := PyInt (Z.of_nat (length values)) in
  get_average_respiration respiration_data =
    (total ← py_sum_from (PyInt 0) values;
     q ← py_truediv total count;
     Ok (Some q)) /\
  (int_magnitude values < float_overflow_bound ->
   Z.of_nat (length values) < float_overflow_bound ->
   exists total q,
     py_sum_from (PyInt 0) values = Ok total /\
     py_truediv total count = Ok q /\
     get_average_respiration respiration_data = Ok (Some q)).
Proof.
  intros values count.
  assert (values <> []) as Hne.
  { destruct Hpresent as (entry & n & Hin & Hget).
    apply list_elem_of_In in Hin.
    assert (n ∈ values) as Hn.
    { apply list_elem_of_omap. exists entry. split; [exact Hin|].
      unfold entry_value. now rewrite Hget. }
    intros E. rewrite E in Hn. inversion Hn. }
  assert (get_average_respiration respiration_data =
            (total ← py_sum_from (PyInt 0) values;
             q ← py_truediv total count; Ok (Some q))) as Hspec.
  { rewrite get_average_respiration_spec. fold values.
    destruct values as [|v vs]; [congruence|].
    unfold mean_of. fold count.
    destruct (py_sum_from (PyInt 0) (v :: vs)); reflexivity. }
  split; [exact Hspec|].
  intros Hmag Hlen.
  destruct (py_sum_from_returns values (PyInt 0)) as (total & Htotal & _);
    [cbn; lia|].
  destruct (mean_of_returns values Hne Hmag Hlen) as (q & Hq).
  unfold mean_of in Hq. rewrite Htotal in Hq. cbn in Hq. fold count in Hq.
  exists total, q. split; [exact Htotal|]. split; [exact Hq|].
  rewrite Hspec, Htotal. cbn. now rewrite Hq.
Qed.

(** On the sample day the theorem gives 30 / 2 = 15.0. *)
Lemma get_average_respiration_mean_sample :
  get_average_respiration sample_day =
    (total ← py_sum_from (PyInt 0) [PyInt 14; PyInt 16];
     q ← py_truediv total (PyInt 2); Ok (Some q)) /\
  get_average_respiration sample_day = Ok (Some 15%float).
Proof.
  assert (exists entry n,
             In entry sample_day /\
             dict_get entry "averageRespirationValue" = PyNum n) as H.
  { exists (respiration_record (PyNum (PyInt 14))), (PyInt 14).
    split; [left; reflexivity|reflexivity]. }
  split.
  - exact (proj1 (get_average_respiration_mean sample_day H)).
  - rewrite (proj1 (get_average_respiration_mean sample_day H)).
    vm_compute. reflexivity.
Defined.

(** The quotient is returned unrounded: 14, 15 and 15 average to
    14.666666666666666, which only the caller rounds to 14.67. *)
Example get_average_respiration_unrounded :
  get_average_respiration
    [respiration_record (PyNum (PyInt 14));
     respiration_record (PyNum (PyInt 15));
     respiration_record (PyNum (PyFloat 15))] =
    Ok (Some 0x1.d555555555555p+3%float) /\
  py_round 0x1.d555555555555p+3 2 = 0x1.d570a3d70a3d7p+3%float.
Proof. split; vm_compute; reflexivity. Qed.

(** C6. An empty sequence, and a sequence in which every record's field is
    absent, give the explicit "no value" result [None]: the call returns,
    and what it returns is not a number. *)
Theorem get_average_respiration_no_value (respiration_data : list dict)
    (Habsent : respiration_data = [] \/
               Forall field_absent respiration_data) :
  get_average_respiration respiration_data = Ok None.
Proof.
  rewrite get_average_respiration_spec.
  destruct Habsent as [-> | Hall]; [reflexivity|].
  now rewrite (present_values_absent _ Hall).
Qed.

Lemma get_average_respiration_no_value_sample :
  get_average_respiration [] = Ok None /\
  get_average_respiration [∅; respiration_record PyNone] = Ok None.
Proof.
  split.
  - apply get_average_respiration_no_value. left. reflexivity.
  - apply get_average_respiration_no_value. right.
    constructor; [left; reflexivity|].
    constructor; [right; reflexivity|].
    constructor.
Defined.

(** C9. A record that misses the field is treated as absent, not as an
    error: [entry.get] answers [None] and the record is skipped, so the
    outcome is the one of the sequence without the record; a sequence of
    such records alone gives [None]; and on every sequence whose int values
    fit a float the call returns. *)
Theorem get_average_respiration_skips_missing :
  (forall (before : list dict) (entry : dict) (after : list dict),
      entry !! "averageRespirationValue" = None ->
      get_average_respiration (before ++ entry :: after) =
      get_average_respiration (before ++ after)) /\
  (forall respiration_data : list dict,
      Forall (fun entry : dict => entry !! "averageRespirationValue" = None)
        respiration_data ->
      get_average_respiration respiration_data = Ok None) /\
  (forall respiration_data : list dict,
      int_magnitude (present_values respiration_data)
        < float_overflow_bound ->
      Z.of_nat (length (present_values respiration_data))
        < float_overflow_bound ->
      exists r, get_average_respiration respiration_data = Ok r).
Proof.
  split; [|split].
  - intros before entry after Hmiss.
    rewrite !get_average_respiration_spec, !present_values_app.
    rewrite (present_values_cons_absent entry after); [reflexivity|].
    apply field_absent_value. now left.
  - intros respiration_data Hall.
    rewrite get_average_respiration_spec, present_values_absent;
      [reflexivity|].
    eapply Forall_impl; [exact Hall|]. intros entry H. now left.
  - apply get_average_respiration_returns.
Qed.

Lemma get_average_respiration_skips_missing_sample :
  get_average_respiration
    ([respiration_record (PyNum (PyInt 14))] ++
       ∅ :: [respiration_record (PyNum (PyInt 16))]) =
  get_average_respiration
    ([respiration_record (PyNum (PyInt 14))] ++
       [respiration_record (PyNum (PyInt 16))]) /\
  get_average_respiration [∅; ∅] = Ok None /\
  exists r, get_average_respiration sample_day_shuffled = Ok r.
Proof.
  destruct get_average_respiration_skips_missing as (Hskip & Hnone & Hret).
  split; [|split].
  - apply Hskip. reflexivity.
  - apply Hnone. constructor; [reflexivity|]. constructor; [reflexivity|].
    constructor.
  - apply Hret; vm_compute; reflexivity.
Defined.

(** C8, as the code has it.  The aggregator depends on the records only
    through their present values in order, so absent entries may be
    interleaved at will; a permutation keeps the result when the present
    values are ints, which Python adds exactly; and for any values a
    permutation keeps whether a value is returned at all.  Floats are added
    from the left with rounding at each step, so their order matters. *)
Theorem get_average_respiration_permutation (l l' : list dict) :
  (present_values l = present_values l' ->
   get_average_respiration l = get_average_respiration l') /\
  (Permutation l l' -> Forall is_int (present_values l) ->
   get_average_respiration l = get_average_respiration l') /\
  (Permutation l l' ->
   (get_average_respiration l = Ok None <->
    get_average_respiration l' = Ok None)).
Proof.
  split; [|split].
  - intros E. now rewrite !get_average_respiration_spec, E.
  - intros Hperm Hints.
    pose proof (present_values_Permutation _ _ Hperm) as Hvs.
    assert (Forall is_int (present_values l')) as Hints'
      by now rewrite <- Hvs.
    rewrite !get_average_respiration_spec.
    destruct (present_values l) as [|v vs] eqn:E.
    + apply Permutation_nil in Hvs. now rewrite Hvs.
    + destruct (present_values l') as [|v' vs'] eqn:E';
        [symmetry in Hvs; apply Permutation_nil in Hvs; discriminate|].
      unfold mean_of.
      rewrite (py_sum_from_ints _ 0 Hints), (py_sum_from_ints _ 0 Hints').
      rewrite <- (int_total_Permutation _ _ Hvs).
      now rewrite <- (Permutation_length Hvs).
  - intros Hperm.
    pose proof (present_values_Permutation _ _ Hperm) as Hvs.
    rewrite !get_average_respiration_spec.
    destruct (present_values l) as [|v vs] eqn:E.
    + apply Permutation_nil in Hvs. rewrite Hvs. tauto.
    + destruct (present_values l') as [|v' vs'] eqn:E';
        [symmetry in Hvs; apply Permutation_nil in Hvs; discriminate|].
      split; intros H.
      * destruct (mean_of (v :: vs)); discriminate.
      * destruct (mean_of (v' :: vs')); discriminate.
Qed.

Lemma get_average_respiration_permutation_sample :
  get_average_respiration sample_day =
  get_average_respiration sample_day_interleaved /\
  get_average_respiration sample_day =
  get_average_respiration sample_day_reversed /\
  (get_average_respiration tenths_ascending = Ok None <->
   get_average_respiration tenths_descending = Ok None).
Proof.
  split; [|split].
  - apply (proj1 (get_average_respiration_permutation
                    sample_day sample_day_interleaved)).
    vm_compute. reflexivity.
  - apply (proj1 (proj2 (get_average_respiration_permutation
                           sample_day sample_day_reversed))).
    + exact (Permutation_rev sample_day).
    + vm_compute. constructor; [exists 14; reflexivity|].
      constructor; [exists 16; reflexivity|]. constructor.
  - apply (proj2 (proj2 (get_average_respiration_permutation
                           tenths_ascending tenths_descending))).
    exact (Permutation_rev tenths_ascending).
Defined.

(** C8, as stated, fails on floats: 0.1, 0.2, 0.3 average to
    0.20000000000000004 in this order and to 0.19999999999999998 in the
    reverse order. *)
Lemma get_average_respiration_order_matters :
  Permutation tenths_ascending tenths_descending /\
  get_average_respiration tenths_ascending =
    Ok (Some 0x1.999999999999bp-3%float) /\
  get_average_respiration tenths_descending =
    Ok (Some 0x1.9999999999999p-3%float) /\
  get_average_respiration tenths_ascending <>
  get_average_respiration tenths_descending.
Proof.
  assert (get_average_respiration tenths_ascending =
            Ok (Some 0x1.999999999999bp-3%float)) as Hup
    by (vm_compute; reflexivity).
  assert (get_average_respiration tenths_descending =
            Ok (Some 0x1.9999999999999p-3%float)) as Hdown
    by (vm_compute; reflexivity).
  split; [exact (Permutation_rev tenths_ascending)|].
  split; [exact Hup|]. split; [exact Hdown|].
  rewrite Hup, Hdown. intros H.
  apply (f_equal (fun r => match r with
                           | Ok (Some q) => Prim2SF q
                           | _ => S754_nan
                           end)) in H.
  vm_compute in H. discriminate.
Qed.

(** * Properties of the orchestrator *)

Section Orchestrator.

Implicit Types (w : world) (garmin : garmin_client) (notion : notion_client).

Ltac unfold_io :=
  unfold mbind, io_bind, mret, io_ret, try_except, get_heart_rates,
    get_respiration_data, pages_create, print, lift, raise, login,
    date_today_isoformat, getenv.

(** What the heart-rate block does, case by case. *)
Lemma heart_rate_block_run garmin notion today_str heart_db_id w :
  heart_rate_block garmin notion today_str heart_db_id w =
  match garmin_get_heart_rates w garmin today_str with
  | Raise e =>
      ([EvGetHeartRates garmin today_str;
        EvPrint (heart_rate_fetch_failed e)], Ok tt)
  | Ok None => ([EvGetHeartRates garmin today_str], Ok tt)
  | Ok (Some hr) =>
      if dict_truthy hr && str_truthy heart_db_id then
        let pg := Page heart_db_id today_str "Resting Heart Rate"
                    (or_zero (dict_get hr "restingHeartRate")) in
        match notion_pages_create w notion pg with
        | None =>
            ([EvGetHeartRates garmin today_str; EvPagesCreate notion pg;
              EvPrint (heart_rate_uploaded today_str)], Ok tt)
        | Some e =>
            ([EvGetHeartRates garmin today_str; EvPagesCreate notion pg],
             Raise e)
        end
      else ([EvGetHeartRates garmin today_str], Ok tt)
  end.
Proof.
  unfold heart_rate_block. unfold_io.
  destruct (garmin_get_heart_rates w garmin today_str) as [[hr|]|e];
    cbn; try reflexivity.
  destruct (dict_truthy hr && str_truthy heart_db_id); cbn; [|reflexivity].
  destruct (notion_pages_create w notion _); reflexivity.
Qed.

(** What the respiration block does, case by case. *)
Lemma respiration_block_run garmin notion today_str resp_db_id w :
  respiration_block garmin notion today_str resp_db_id w =
  match garmin_get_respiration_data w garmin today_str with
  | Raise e =>
      ([EvGetRespirationData garmin today_str;
        EvPrint (respiration_fetch_failed e)], Ok tt)
  | Ok None => ([EvGetRespirationData garmin today_str], Ok tt)
  | Ok (Some resp) =>
      if list_truthy resp && str_truthy resp_db_id then
        match get_average_respiration resp with
        | Raise e => ([EvGetRespirationData garmin today_str], Raise e)
        | Ok None => ([EvGetRespirationData garmin today_str], Ok tt)
        | Ok (Some avg) =>
            let pg := Page resp_db_id today_str "Average Respiration"
                        (PyFloat (py_round avg 2)) in
            match notion_pages_create w notion pg with
            | None =>
                ([EvGetRespirationData garmin today_str;
                  EvPagesCreate notion pg;
                  EvPrint (respiration_uploaded today_str)], Ok tt)
            | Some e =>
                ([EvGetRespirationData garmin today_str;
                  EvPagesCreate notion pg], Raise e)
            end
        end
      else ([EvGetRespirationData garmin today_str], Ok tt)
  end.
Proof.
  unfold respiration_block. unfold_io.
  destruct (garmin_get_respiration_data w garmin today_str) as [[resp|]|e];
    cbn; try reflexivity.
  destruct (list_truthy resp && str_truthy resp_db_id); cbn; [|reflexivity].
  destruct (get_average_respiration resp) as [[avg|]|e]; cbn;
    try reflexivity.
  destruct (notion_pages_create w notion _); reflexivity.
Qed.

(** A run: the configuration check, the log-in, then the two blocks. *)
Lemma sync_health_run w :
  sync_health w =
  if credentials_ok w then
    match garmin_login w (garmin_of w) with
    | Some e => ([EvLogin (garmin_of w)], Raise e)
    | None =>
        match heart_rate_block (garmin_of w) (notion_of w)
                (today_isoformat w)
                (environ w !! "NOTION_HEART_RATE_DB_ID") w with
        | (t1, Ok _) =>
            let '(t2, r) :=
              respiration_block (garmin_of w) (notion_of w)
                (today_isoformat w)
                (environ w !! "NOTION_RESPIRATION_DB_ID") w in
            (EvLogin (garmin_of w) :: t1 ++ t2, r)
        | (t1, Raise e) => (EvLogin (garmin_of w) :: t1, Raise e)
        end
    end
  else ([], Raise missing_credentials).
Proof.
  unfold sync_health, credentials_ok, py_all.
  unfold mbind at 1 2 3 4 5, io_bind at 1 2 3 4 5, getenv. cbn [forallb id].
  rewrite andb_true_r, andb_assoc.
  destruct (str_truthy (environ w !! "GARMIN_EMAIL") &&
            str_truthy (environ w !! "GARMIN_PASSWORD") &&
            str_truthy (environ w !! "NOTION_TOKEN")); cbn [negb];
    [|reflexivity].
  fold (garmin_of w) (notion_of w).
  unfold mbind, io_bind, login, date_today_isoformat.
  destruct (garmin_login w (garmin_of w)); [reflexivity|].
  cbn [app].
  destruct (heart_rate_block _ _ _ _ w) as [t1 [[]|e]]; [|reflexivity].
  destruct (respiration_block _ _ _ _ w) as [t2 r]. reflexivity.
Qed.

(** Every call of the heart-rate block, with the reason it was made. *)
Lemma heart_rate_block_event garmin notion today_str heart_db_id w ev :
  In ev (fst (heart_rate_block garmin notion today_str heart_db_id w)) ->
  ev = EvGetHeartRates garmin today_str \/
  (exists e, garmin_get_heart_rates w garmin today_str = Raise e /\
             ev = EvPrint (heart_rate_fetch_failed e)) \/
  (exists hr,
      garmin_get_heart_rates w garmin today_str = Ok (Some hr) /\
      dict_truthy hr = true /\ str_truthy heart_db_id = true /\
      let pg := Page heart_db_id today_str "Resting Heart Rate"
                  (or_zero (dict_get hr "restingHeartRate")) in
      (ev = EvPagesCreate notion pg \/
       (notion_pages_create w notion pg = None /\
        ev = EvPrint (heart_rate_uploaded today_str)))).
Proof.
  rewrite heart_rate_block_run.
  destruct (garmin_get_heart_rates w garmin today_str) as [[hr|]|e] eqn:Hf.
  - destruct (dict_truthy hr) eqn:Hd, (str_truthy heart_db_id) eqn:Hs;
      cbn [andb fst In].
    2-4: intros [<-|[]]; now left.
    destruct (notion_pages_create w notion _) eqn:Hc; cbn [fst In].
    + intros [<-|[<-|[]]]; [now left|].
      right; right. exists hr. repeat split; auto.
    + intros [<-|[<-|[<-|[]]]]; [now left| |];
        right; right; exists hr; repeat split; auto.
  - cbn. intros [<-|[]]. now left.
  - cbn. intros [<-|[<-|[]]]; [now left|]. right; left. eauto.
Qed.

(** Every call of the respiration block, with the reason it was made. *)
Lemma respiration_block_event garmin notion today_str resp_db_id w ev :
  In ev (fst (respiration_block garmin notion today_str resp_db_id w)) ->
  ev = EvGetRespirationData garmin today_str \/
  (exists e, garmin_get_respiration_data w garmin today_str = Raise e /\
             ev = EvPrint (respiration_fetch_failed e)) \/
  (exists resp avg,
      garmin_get_respiration_data w garmin today_str = Ok (Some resp) /\
      list_truthy resp = true /\ str_truthy resp_db_id = true /\
      get_average_respiration resp = Ok (Some avg) /\
      let pg := Page resp_db_id today_str "Average Respiration"
                  (PyFloat (py_round avg 2)) in
      (ev = EvPagesCreate notion pg \/
       (notion_pages_create w notion pg = None /\
        ev = EvPrint (respiration_uploaded today_str)))).
Proof.
  rewrite respiration_block_run.
  destruct (garmin_get_respiration_data w garmin today_str)
    as [[resp|]|e] eqn:Hf.
  - destruct (list_truthy resp) eqn:Hd, (str_truthy resp_db_id) eqn:Hs;
      cbn [andb fst In].
    2-4: intros [<-|[]]; now left.
    destruct (get_average_respiration resp) as [[avg|]|e] eqn:Ha;
      cbn [fst In].
    2-3: intros [<-|[]]; now left.
    destruct (notion_pages_create w notion _) eqn:Hc; cbn [fst In].
    + intros [<-|[<-|[]]]; [now left|].
      right; right. exists resp, avg. repeat split; auto.
    + intros [<-|[<-|[<-|[]]]]; [now left| |];
        right; right; exists resp, avg; repeat split; auto.
  - cbn. intros [<-|[]]. now left.
  - cbn. intros [<-|[<-|[]]]; [now left|]. right; left. eauto.
Qed.

(** Every call of a run is the log-in or a call of one of the blocks, and
    none is made unless the credentials are there. *)
Lemma sync_health_event w ev :
  In ev (trace_of w) ->
  credentials_ok w = true /\
  (ev = EvLogin (garmin_of w) \/
   In ev (fst (heart_rate_block (garmin_of w) (notion_of w)
                 (today_isoformat w)
                 (environ w !! "NOTION_HEART_RATE_DB_ID") w)) \/
   In ev (fst (respiration_block (garmin_of w) (notion_of w)
                 (today_isoformat w)
                 (environ w !! "NOTION_RESPIRATION_DB_ID") w))).
Proof.
  unfold trace_of. rewrite sync_health_run.
  destruct (credentials_ok w); [|intros []].
  intros H. split; [reflexivity|].
  destruct (garmin_login w (garmin_of w)).
  - destruct H as [<-|[]]. now left.
  - destruct (heart_rate_block _ _ _ _ w) as [t1 [[]|e]].
    + destruct (respiration_block _ _ _ _ w) as [t2 r].
      cbn [fst] in *. destruct H as [<-|H]; [now left|].
      apply in_app_or in H as [H|H]; auto.
    + cbn [fst] in *. destruct H as [<-|H]; auto.
Qed.

(** No heart-rate row without a heart-rate table. *)
Lemma no_heart_rate_row w ev :
  str_truthy (environ w !! "NOTION_HEART_RATE_DB_ID") = false ->
  In ev (trace_of w) -> ~ creates_row "Resting Heart Rate" ev.
Proof.
  intros Hdb [_ Hev]%sync_health_event (notion & pg & -> & Hprop).
  destruct Hev as [Hev|[Hev|Hev]]; [discriminate| |].
  - apply heart_rate_block_event in Hev
      as [Hev|[(e & _ & Hev)|(hr & _ & _ & Hs & _)]];
      [discriminate|discriminate|congruence].
  - apply respiration_block_event in Hev
      as [Hev|[(e & _ & Hev)|(resp & avg & _ & _ & _ & _ & [Hev|[_ Hev]])]];
      try discriminate.
    injection Hev as _ ->. discriminate.
Qed.

(** No respiration row without a respiration table. *)
Lemma no_respiration_row w ev :
  str_truthy (environ w !! "NOTION_RESPIRATION_DB_ID") = false ->
  In ev (trace_of w) -> ~ creates_row "Average Respiration" ev.
Proof.
  intros Hdb [_ Hev]%sync_health_event (notion & pg & -> & Hprop).
  destruct Hev as [Hev|[Hev|Hev]]; [discriminate| |].
  - apply heart_rate_block_event in Hev
      as [Hev|[(e & _ & Hev)|(hr & _ & _ & _ & [Hev|[_ Hev]])]];
      try discriminate.
    injection Hev as _ ->. discriminate.
  - apply respiration_block_event in Hev
      as [Hev|[(e & _ & Hev)|(resp & avg & _ & _ & Hs & _)]];
      [discriminate|discriminate|congruence].
Qed.

(** Every call of [notion.pages.create] is one of the two uploads, made
    for the reasons the block states. *)
Lemma pages_create_event w notion pg :
  In (EvPagesCreate notion pg) (trace_of w) ->
  notion = notion_of w /\
  ((exists hr,
       garmin_get_heart_rates w (garmin_of w) (today_isoformat w)
         = Ok (Some hr) /\
       dict_truthy hr = true /\
       str_truthy (environ w !! "NOTION_HEART_RATE_DB_ID") = true /\
       pg = heart_rate_page w hr) \/
   (exists resp avg,
       garmin_get_respiration_data w (garmin_of w) (today_isoformat w)
         = Ok (Some resp) /\
       list_truthy resp = true /\
       str_truthy (environ w !! "NOTION_RESPIRATION_DB_ID") = true /\
       get_average_respiration resp = Ok (Some avg) /\
       pg = respiration_page w avg)).
Proof.
  intros [_ [Hev|[Hev|Hev]]]%sync_health_event; [discriminate| |].
  - apply heart_rate_block_event in Hev
      as [Hev|[(e & _ & Hev)|(hr & Hf & Hd & Hs & [Hev|[_ Hev]])]];
      try discriminate.
    injection Hev as -> ->. split; [reflexivity|]. left. eauto.
  - apply respiration_block_event in Hev
      as [Hev|[(e & _ & Hev)
              |(resp & avg & Hf & Hd & Hs & Ha & [Hev|[_ Hev]])]];
      try discriminate.
    injection Hev as -> ->. split; [reflexivity|]. right. eauto 10.
Qed.

(** The respiration block begins with its fetch. *)
Lemma respiration_block_starts garmin notion today_str resp_db_id w :
  exists rest,
    fst (respiration_block garmin notion today_str resp_db_id w) =
    EvGetRespirationData garmin today_str :: rest.
Proof.
  rewrite respiration_block_run.
  destruct (garmin_get_respiration_data w garmin today_str) as [[resp|]|e];
    [|eauto|eauto].
  destruct (list_truthy resp && str_truthy resp_db_id); [|eauto].
  destruct (get_average_respiration resp) as [[avg|]|e]; [|eauto|eauto].
  cbn zeta. destruct (notion_pages_create w notion _); eauto.
Qed.

(** When its conditions hold, the respiration block asks for the row. *)
Lemma respiration_block_uploads garmin notion today_str resp_db_id w
    resp avg :
  garmin_get_respiration_data w garmin today_str = Ok (Some resp) ->
  list_truthy resp = true ->
  str_truthy resp_db_id = true ->
  get_average_respiration resp = Ok (Some avg) ->
  In (EvPagesCreate notion
        (Page resp_db_id today_str "Average Respiration"
           (PyFloat (py_round avg 2))))
     (fst (respiration_block garmin notion today_str resp_db_id w)).
Proof.
  intros Hf Hd Hs Ha.
  rewrite respiration_block_run, Hf, Hd, Hs, Ha. cbn [andb]. cbn zeta.
  destruct (notion_pages_create w notion _); cbn; tauto.
Qed.

End Orchestrator.

(** * The claims about the orchestrator *)

(** C3. When the account identifier, the credential or the auth token is
    absent, the run ends with the configuration error and has made no call
    at all: no network call, no row.  With the three present the run goes
    on to log in whatever the table identifiers are, and with both of them
    absent it still fetches, creates no row and ends normally. *)
Theorem sync_health_missing_credentials (w : world) :
  (environ w !! "GARMIN_EMAIL" = None \/
   environ w !! "GARMIN_PASSWORD" = None \/
   environ w !! "NOTION_TOKEN" = None ->
   sync_health w = ([], Raise missing_credentials)) /\
  (credentials_ok w = true ->
   sync_health w <> ([], Raise missing_credentials) /\
   exists rest, trace_of w = EvLogin (garmin_of w) :: rest) /\
  (credentials_ok w = true ->
   garmin_login w (garmin_of w) = None ->
   environ w !! "NOTION_HEART_RATE_DB_ID" = None ->
   environ w !! "NOTION_RESPIRATION_DB_ID" = None ->
   outcome_of w = Ok tt /\
   In (EvGetHeartRates (garmin_of w) (today_isoformat w)) (trace_of w) /\
   In (EvGetRespirationData (garmin_of w) (today_isoformat w))
     (trace_of w) /\
   forall notion pg, ~ In (EvPagesCreate notion pg) (trace_of w)).
Proof.
  split; [|split].
  - intros H. rewrite sync_health_run. unfold credentials_ok.
    destruct H as [H|[H|H]]; rewrite H; cbn [str_truthy];
      rewrite ?andb_false_r; reflexivity.
  - intros Hcred.
    assert (exists rest, trace_of w = EvLogin (garmin_of w) :: rest)
      as [rest Hrest].
    { unfold trace_of. rewrite sync_health_run, Hcred.
      destruct (garmin_login w (garmin_of w)); [eauto|].
      destruct (heart_rate_block _ _ _ _ w) as [t1 [[]|e]]; [|eauto].
      destruct (respiration_block _ _ _ _ w) as [t2 r]. eauto. }
    split; [|eauto].
    intros E. unfold trace_of in Hrest. rewrite E in Hrest. discriminate.
  - intros Hcred Hlogin Hhr Hresp.
    unfold outcome_of, trace_of.
    rewrite sync_health_run, Hcred, Hlogin, Hhr, Hresp.
    rewrite heart_rate_block_run, respiration_block_run.
    cbn [str_truthy].
    destruct (garmin_get_heart_rates w _ _) as [[hr|]|e];
      destruct (garmin_get_respiration_data w _ _) as [[resp|]|e'];
      rewrite ?andb_false_r; cbn;
      (split; [reflexivity|]); (split; [tauto|]); (split; [tauto|]);
      intros notion pg H; intuition discriminate.
Qed.

Lemma sync_health_missing_credentials_sample :
  sync_health
    (with_environ sample_world (delete "GARMIN_EMAIL" sample_environ)) =
    ([], Raise missing_credentials) /\
  (exists rest,
      trace_of sample_world = EvLogin (garmin_of sample_world) :: rest) /\
  outcome_of
    (with_environ sample_world
       (delete "NOTION_HEART_RATE_DB_ID"
          (delete "NOTION_RESPIRATION_DB_ID" sample_environ))) = Ok tt.
Proof.
  split; [|split].
  - apply (proj1 (sync_health_missing_credentials _)).
    left. vm_compute. reflexivity.
  - apply (proj1 (proj2 (sync_health_missing_credentials sample_world))).
    vm_compute. reflexivity.
  - apply (proj2 (proj2 (sync_health_missing_credentials _)));
      vm_compute; reflexivity.
Defined.

(** C10. A value that is set to the empty string is treated exactly like
    one that is not set: the run is the same, call for call.  So an empty
    account identifier, credential or token ends the run with the
    configuration error before any call, and an empty table identifier
    leaves the corresponding row uncreated. *)
Theorem sync_health_empty_string_as_absent (w : world) (name : string) :
  sync_health (with_environ w (<[name := String.EmptyString]> (environ w))) =
  sync_health (with_environ w (delete name (environ w))) /\
  (environ w !! "GARMIN_EMAIL" = Some String.EmptyString \/
   environ w !! "GARMIN_PASSWORD" = Some String.EmptyString \/
   environ w !! "NOTION_TOKEN" = Some String.EmptyString ->
   sync_health w = ([], Raise missing_credentials)) /\
  (environ w !! "NOTION_HEART_RATE_DB_ID" = Some String.EmptyString ->
   forall ev, In ev (trace_of w) -> ~ creates_row "Resting Heart Rate" ev) /\
  (environ w !! "NOTION_RESPIRATION_DB_ID" = Some String.EmptyString ->
   forall ev, In ev (trace_of w) ->
              ~ creates_row "Average Respiration" ev).
Proof.
  split; [|split; [|split]].
  - rewrite !sync_health_run.
    unfold credentials_ok, garmin_of, notion_of.
    rewrite !heart_rate_block_run, !respiration_block_run.
    cbn [environ with_environ today_isoformat garmin_login
         garmin_get_heart_rates garmin_get_respiration_data
         notion_pages_create].
    rewrite !lookup_insert, !lookup_delete.
    repeat case_decide; subst; try discriminate; cbn [str_truthy andb].
    all: rewrite ?andb_false_r; try reflexivity.
    all: destruct (str_truthy (environ w !! "GARMIN_EMAIL") &&
                   str_truthy (environ w !! "GARMIN_PASSWORD") &&
                   str_truthy (environ w !! "NOTION_TOKEN"));
      [|reflexivity].
    all: destruct (garmin_login w _); [reflexivity|].
    all: destruct (garmin_get_heart_rates w _ _) as [[hr|]|e];
      destruct (garmin_get_respiration_data w _ _) as [[resp|]|e'];
      rewrite ?andb_false_r; reflexivity.
  - intros H. rewrite sync_health_run. unfold credentials_ok.
    destruct H as [H|[H|H]]; rewrite H; cbn [str_truthy];
      rewrite ?andb_false_r; reflexivity.
  - intros H ev. apply no_heart_rate_row. now rewrite H.
  - intros H ev. apply no_respiration_row. now rewrite H.
Qed.

Lemma sync_health_empty_string_as_absent_sample :
  sync_health
    (with_environ sample_world
       (<["NOTION_TOKEN" := String.EmptyString]> sample_environ)) =
    ([], Raise missing_credentials) /\
  forall ev,
    In ev (trace_of
             (with_environ sample_world
                (<["NOTION_HEART_RATE_DB_ID" := String.EmptyString]>
                   sample_environ))) ->
    ~ creates_row "Resting Heart Rate" ev.
Proof.
  split.
  - apply (proj1 (proj2 (sync_health_empty_string_as_absent _
                           "NOTION_TOKEN"))).
    right; right. vm_compute. reflexivity.
  - apply (proj1 (proj2 (proj2 (sync_health_empty_string_as_absent _
                                  "NOTION_TOKEN")))).
    vm_compute. reflexivity.
Defined.

(** C4. When the heart-rate fetch raises, the exception is caught where
    the call is made: the diagnostic is printed, the heart-rate data is
    [None], so no heart-rate row is asked for, and the run goes on with
    the whole respiration block: its fetch is the next call, and its
    upload is made whenever its own conditions hold. *)
Theorem sync_health_heart_rate_fetch_raises (w : world) (e : exn)
    (Hcred : credentials_ok w = true)
    (Hlogin : garmin_login w (garmin_of w) = None)
    (Hfetch : garmin_get_heart_rates w (garmin_of w) (today_isoformat w)
              = Raise e) :
  sync_health w =
    (let '(t, r) :=
       respiration_block (garmin_of w) (notion_of w) (today_isoformat w)
         (environ w !! "NOTION_RESPIRATION_DB_ID") w in
     ([EvLogin (garmin_of w);
       EvGetHeartRates (garmin_of w) (today_isoformat w);
       EvPrint (heart_rate_fetch_failed e)] ++ t, r)) /\
  (exists rest,
      trace_of w =
        [EvLogin (garmin_of w);
         EvGetHeartRates (garmin_of w) (today_isoformat w);
         EvPrint (heart_rate_fetch_failed e);
         EvGetRespirationData (garmin_of w) (today_isoformat w)] ++ rest) /\
  (forall ev, In ev (trace_of w) -> ~ creates_row "Resting Heart Rate" ev) /\
  (forall resp avg,
      garmin_get_respiration_data w (garmin_of w) (today_isoformat w)
        = Ok (Some resp) ->
      list_truthy resp = true ->
      str_truthy (environ w !! "NOTION_RESPIRATION_DB_ID") = true ->
      get_average_respiration resp = Ok (Some avg) ->
      In (EvPagesCreate (notion_of w) (respiration_page w avg))
        (trace_of w)).
Proof.
  assert (sync_health w =
    (let '(t, r) :=
       respiration_block (garmin_of w) (notion_of w) (today_isoformat w)
         (environ w !! "NOTION_RESPIRATION_DB_ID") w in
     ([EvLogin (garmin_of w);
       EvGetHeartRates (garmin_of w) (today_isoformat w);
       EvPrint (heart_rate_fetch_failed e)] ++ t, r))) as Hrun.
  { rewrite sync_health_run, Hcred, Hlogin, heart_rate_block_run, Hfetch.
    destruct (respiration_block _ _ _ _ w) as [t r]. reflexivity. }
  split; [exact Hrun|]. split; [|split].
  - unfold trace_of. rewrite Hrun.
    destruct (respiration_block_starts (garmin_of w) (notion_of w)
                (today_isoformat w)
                (environ w !! "NOTION_RESPIRATION_DB_ID") w) as [rest Hrest].
    destruct (respiration_block _ _ _ _ w) as [t r]. cbn [fst] in *.
    subst t. exists rest. reflexivity.
  - intros ev Hev (notion & pg & -> & Hprop).
    apply pages_create_event in Hev
      as [_ [(hr & Hf & _)|(resp & avg & _ & _ & _ & _ & ->)]].
    + congruence.
    + discriminate.
  - intros resp avg Hf Hd Hs Ha.
    pose proof (respiration_block_uploads (garmin_of w) (notion_of w)
                  (today_isoformat w) _ w resp avg Hf Hd Hs Ha) as Hin.
    unfold trace_of. rewrite Hrun.
    destruct (respiration_block _ _ _ _ w) as [t r]. cbn [fst] in *.
    apply in_or_app. right. exact Hin.
Qed.

Lemma sync_health_heart_rate_fetch_raises_sample :
  sync_health heart_rate_down =
    ([EvLogin (garmin_of heart_rate_down);
      EvGetHeartRates (garmin_of heart_rate_down) "2024-05-01";
      EvPrint "Could not fetch heart‑rate data: 429 Too Many Requests";
      EvGetRespirationData (garmin_of heart_rate_down) "2024-05-01";
      EvPagesCreate (notion_of heart_rate_down)
        (Page (Some "resp-db") "2024-05-01" "Average Respiration"
           (PyFloat 15));
      EvPrint "Uploaded respiration data for 2024-05-01"], Ok tt).
Proof.
  rewrite (proj1 (sync_health_heart_rate_fetch_raises heart_rate_down
                    (ServiceError "429 Too Many Requests")
                    eq_refl eq_refl eq_refl)).
  vm_compute. reflexivity.
Defined.

(** C7. The calls of [notion.pages.create] stand outside any handler.
    When the heart-rate row creation raises, the run ends there with that
    exception: the respiration data is never fetched and nothing more is
    printed.  When the respiration row creation raises (the heart-rate
    block having completed), the run ends with that exception after the
    calls already made. *)
Theorem sync_health_upload_raises (w : world) (e : exn)
    (Hcred : credentials_ok w = true)
    (Hlogin : garmin_login w (garmin_of w) = None) :
  (forall hr,
      garmin_get_heart_rates w (garmin_of w) (today_isoformat w)
        = Ok (Some hr) ->
      dict_truthy hr = true ->
      str_truthy (environ w !! "NOTION_HEART_RATE_DB_ID") = true ->
      notion_pages_create w (notion_of w) (heart_rate_page w hr) = Some e ->
      sync_health w =
        ([EvLogin (garmin_of w);
          EvGetHeartRates (garmin_of w) (today_isoformat w);
          EvPagesCreate (notion_of w) (heart_rate_page w hr)], Raise e)) /\
  (forall t1 resp avg,
      heart_rate_block (garmin_of w) (notion_of w) (today_isoformat w)
        (environ w !! "NOTION_HEART_RATE_DB_ID") w = (t1, Ok tt) ->
      garmin_get_respiration_data w (garmin_of w) (today_isoformat w)
        = Ok (Some resp) ->
      list_truthy resp = true ->
      str_truthy (environ w !! "NOTION_RESPIRATION_DB_ID") = true ->
      get_average_respiration resp = Ok (Some avg) ->
      notion_pages_create w (notion_of w) (respiration_page w avg)
        = Some e ->
      sync_health w =
        (EvLogin (garmin_of w) :: t1 ++
         [EvGetRespirationData (garmin_of w) (today_isoformat w);
          EvPagesCreate (notion_of w) (respiration_page w avg)], Raise e)).
Proof.
  split.
  - intros hr Hf Hd Hs Hc. unfold heart_rate_page in Hc.
    rewrite sync_health_run, Hcred, Hlogin, heart_rate_block_run.
    rewrite Hf, Hd, Hs. cbn [andb]. cbn zeta. rewrite Hc. reflexivity.
  - intros t1 resp avg Hhr Hf Hd Hs Ha Hc. unfold respiration_page in Hc.
    rewrite sync_health_run, Hcred, Hlogin, Hhr, respiration_block_run.
    rewrite Hf, Hd, Hs, Ha. cbn [andb]. cbn zeta. rewrite Hc. reflexivity.
Qed.

Lemma sync_health_upload_raises_sample :
  sync_health notion_down =
    ([EvLogin (garmin_of notion_down);
      EvGetHeartRates (garmin_of notion_down) "2024-05-01";
      EvPagesCreate (notion_of notion_down)
        (Page (Some "hr-db") "2024-05-01" "Resting Heart Rate" (PyInt 52))],
     Raise (ServiceError "502 Bad Gateway")) /\
  sync_health respiration_table_down =
    ([EvLogin (garmin_of respiration_table_down);
      EvGetHeartRates (garmin_of respiration_table_down) "2024-05-01";
      EvPagesCreate (notion_of respiration_table_down)
        (Page (Some "hr-db") "2024-05-01" "Resting Heart Rate" (PyInt 52));
      EvPrint "Uploaded heart‑rate data for 2024-05-01";
      EvGetRespirationData (garmin_of respiration_table_down) "2024-05-01";
      EvPagesCreate (notion_of respiration_table_down)
        (Page (Some "resp-db") "2024-05-01" "Average Respiration"
           (PyFloat 15))],
     Raise (ServiceError "502 Bad Gateway")).
Proof.
  split.
  - rewrite (proj1 (sync_health_upload_raises notion_down
                      (ServiceError "502 Bad Gateway") eq_refl eq_refl)
               {[ "restingHeartRate" := PyNum (PyInt 52) ]})
      by (vm_compute; reflexivity).
    vm_compute. reflexivity.
  - rewrite (proj2 (sync_health_upload_raises respiration_table_down
                    (ServiceError "502 Bad Gateway") eq_refl eq_refl)
             [EvGetHeartRates (garmin_of respiration_table_down)
                "2024-05-01";
              EvPagesCreate (notion_of respiration_table_down)
                (Page (Some "hr-db") "2024-05-01" "Resting Heart Rate"
                   (PyInt 52));
              EvPrint "Uploaded heart‑rate data for 2024-05-01"]
             sample_day 15%float)
      by (vm_compute; reflexivity).
    vm_compute. reflexivity.
Defined.

(** C5. With heart-rate data present and the heart-rate table configured,
    the row creation is the call that follows the fetch, to the configured
    table, and what it sends is read off the record.  When the record has
    no [restingHeartRate] key, or holds [None] there, the number sent is
    the int 0: the row is created all the same.  When the record holds a
    number there, that number is sent as it is; a zero (0, 0.0, -0.0) goes
    out as the int 0, which is the same number.  The success line follows
    when Notion accepts the row. *)
Theorem sync_health_resting_heart_rate (w : world) (hr : dict)
    (Hcred : credentials_ok w = true)
    (Hlogin : garmin_login w (garmin_of w) = None)
    (Hfetch : garmin_get_heart_rates w (garmin_of w) (today_isoformat w)
              = Ok (Some hr))
    (Hdata : dict_truthy hr = true)
    (Hdb : str_truthy (environ w !! "NOTION_HEART_RATE_DB_ID") = true) :
  let row := fun uploaded : number =>
    Page (environ w !! "NOTION_HEART_RATE_DB_ID") (today_isoformat w)
      "Resting Heart Rate" uploaded in
  let uploads := fun uploaded : number =>
    exists rest,
      trace_of w =
        EvLogin (garmin_of w) ::
        EvGetHeartRates (garmin_of w) (today_isoformat w) ::
        EvPagesCreate (notion_of w) (row uploaded) :: rest in
  (hr !! "restingHeartRate" = None \/
   hr !! "restingHeartRate" = Some PyNone ->
   uploads (PyInt 0)) /\
  (forall v, hr !! "restingHeartRate" = Some (PyNum v) ->
             number_truthy v = true -> uploads v) /\
  (forall v, hr !! "restingHeartRate" = Some (PyNum v) ->
             number_truthy v = false -> is_zero v /\ uploads (PyInt 0)) /\
  (forall uploaded,
      uploads uploaded ->
      notion_pages_create w (notion_of w) (row uploaded) = None ->
      exists rest,
        trace_of w =
          EvLogin (garmin_of w) ::
          EvGetHeartRates (garmin_of w) (today_isoformat w) ::
          EvPagesCreate (notion_of w) (row uploaded) ::
          EvPrint (heart_rate_uploaded (today_isoformat w)) :: rest).
Proof.
  intros row uploads.
  assert (uploads (or_zero (dict_get hr "restingHeartRate"))) as Hsent.
  { unfold uploads, row, trace_of.
    rewrite sync_health_run, Hcred, Hlogin, heart_rate_block_run.
    rewrite Hfetch, Hdata, Hdb. cbn [andb]. cbn zeta.
    destruct (notion_pages_create w (notion_of w) _).
    - eauto.
    - destruct (respiration_block _ _ _ _ w) as [t2 r]. cbn. eauto. }
  split; [|split; [|split]].
  - intros Habsent.
    replace (PyInt 0) with (or_zero (dict_get hr "restingHeartRate"));
      [exact Hsent|].
    unfold dict_get. destruct Habsent as [-> | ->]; reflexivity.
  - intros v Hv Ht.
    replace v with (or_zero (dict_get hr "restingHeartRate")) at 1;
      [exact Hsent|].
    unfold dict_get. rewrite Hv. cbn. now rewrite Ht.
  - intros v Hv Ht. split.
    + destruct v as [z|f]; cbn in *.
      * apply negb_false_iff, Z.eqb_eq in Ht. exact Ht.
      * now apply negb_false_iff in Ht.
    + replace (PyInt 0) with (or_zero (dict_get hr "restingHeartRate"));
        [exact Hsent|].
      unfold dict_get. rewrite Hv. cbn. now rewrite Ht.
  - intros uploaded [rest Hrest] Hc. unfold row in *.
    unfold trace_of in *. revert Hrest.
    rewrite sync_health_run, Hcred, Hlogin, heart_rate_block_run.
    rewrite Hfetch, Hdata, Hdb. cbn [andb]. cbn zeta.
    destruct (notion_pages_create w (notion_of w)
                (Page _ _ _ (or_zero _))) as [e|] eqn:Hc'.
    + cbn [fst]. intros [= <- _]. congruence.
    + destruct (respiration_block _ _ _ _ w) as [t2 r]. cbn [fst app].
      intros [= <- _]. eauto.
Qed.

(** On three days: a record without a resting value is sent as 0 and the
    success line follows, a resting value of 52 is sent as 52, and a
    resting value of 0.0 is sent as the int 0. *)
Lemma sync_health_resting_heart_rate_sample :
  (exists rest,
      trace_of sample_world =
        EvLogin (garmin_of sample_world) ::
        EvGetHeartRates (garmin_of sample_world) "2024-05-01" ::
        EvPagesCreate (notion_of sample_world)
          (Page (Some "hr-db") "2024-05-01" "Resting Heart Rate"
             (PyInt 0)) ::
        EvPrint "Uploaded heart‑rate data for 2024-05-01" :: rest) /\
  (exists rest,
      trace_of full_world =
        EvLogin (garmin_of full_world) ::
        EvGetHeartRates (garmin_of full_world) "2024-05-01" ::
        EvPagesCreate (notion_of full_world)
          (Page (Some "hr-db") "2024-05-01" "Resting Heart Rate"
             (PyInt 52)) :: rest) /\
  (exists rest,
      trace_of resting_zero_world =
        EvLogin (garmin_of resting_zero_world) ::
        EvGetHeartRates (garmin_of resting_zero_world) "2024-05-01" ::
        EvPagesCreate (notion_of resting_zero_world)
          (Page (Some "hr-db") "2024-05-01" "Resting Heart Rate"
             (PyInt 0)) :: rest).
Proof.
  split; [|split].
  - pose proof (sync_health_resting_heart_rate sample_world
                  {[ "restingHeartRate" := PyNone ]}
                  eq_refl eq_refl eq_refl eq_refl eq_refl)
      as (Habsent & _ & _ & Hline).
    cbv zeta in Habsent, Hline.
    destruct (Hline (PyInt 0)) as [rest Hrest].
    + apply Habsent. right. reflexivity.
    + reflexivity.
    + exists rest. rewrite Hrest. vm_compute. reflexivity.
  - pose proof (sync_health_resting_heart_rate full_world
                  {[ "restingHeartRate" := PyNum (PyInt 52) ]}
                  eq_refl eq_refl eq_refl eq_refl eq_refl)
      as (_ & Hpresent & _ & _).
    cbv zeta in Hpresent.
    destruct (Hpresent (PyInt 52)) as [rest Hrest];
      [reflexivity|reflexivity|].
    exists rest. rewrite Hrest. vm_compute. reflexivity.
  - pose proof (sync_health_resting_heart_rate resting_zero_world
                  (<[ "maxHeartRate" := PyNum (PyInt 143) ]>
                     {[ "restingHeartRate" := PyNum (PyFloat 0) ]})
                  eq_refl eq_refl eq_refl eq_refl eq_refl)
      as (_ & _ & Hzero & _).
    cbv zeta in Hzero.
    destruct (Hzero (PyFloat 0)) as [_ [rest Hrest]];
      [reflexivity|reflexivity|].
    exists rest. rewrite Hrest. vm_compute. reflexivity.
Defined.

(** C2. A row creation is only ever asked for by one of the two uploads:
    the heart-rate one when the heart-rate data is present and its table
    is configured, the respiration one when the respiration data is
    present, its table is configured and the aggregator gave a value, and
    then the number sent is that mean rounded to two decimals, to the
    configured table.  When a table identifier is not configured its row
    creation is never called, whatever was fetched. *)
Theorem sync_health_rows_only_if (w : world) :
  (forall notion pg,
      In (EvPagesCreate notion pg) (trace_of w) ->
      (exists hr,
          garmin_get_heart_rates w (garmin_of w) (today_isoformat w)
            = Ok (Some hr) /\
          dict_truthy hr = true /\
          str_truthy (environ w !! "NOTION_HEART_RATE_DB_ID") = true /\
          database_id pg = environ w !! "NOTION_HEART_RATE_DB_ID" /\
          number_property pg = "Resting Heart Rate") \/
      (exists resp avg,
          garmin_get_respiration_data w (garmin_of w) (today_isoformat w)
            = Ok (Some resp) /\
          list_truthy resp = true /\
          str_truthy (environ w !! "NOTION_RESPIRATION_DB_ID") = true /\
          get_average_respiration resp = Ok (Some avg) /\
          database_id pg = environ w !! "NOTION_RESPIRATION_DB_ID" /\
          number_property pg = "Average Respiration" /\
          number_value pg = PyFloat (py_round avg 2))) /\
  (str_truthy (environ w !! "NOTION_HEART_RATE_DB_ID") = false ->
   forall ev, In ev (trace_of w) -> ~ creates_row "Resting Heart Rate" ev) /\
  (str_truthy (environ w !! "NOTION_RESPIRATION_DB_ID") = false ->
   forall ev, In ev (trace_of w) ->
              ~ creates_row "Average Respiration" ev).
Proof.
  split; [|split].
  - intros notion pg
      [_ [(hr & Hf & Hd & Hs & ->)
         |(resp & avg & Hf & Hd & Hs & Ha & ->)]]%pages_create_event.
    + left. exists hr. repeat split; assumption.
    + right. exists resp, avg. repeat split; assumption.
  - intros Hdb ev. now apply no_heart_rate_row.
  - intros Hdb ev. now apply no_respiration_row.
Qed.

(** Python's [round(x, 2)] at a few floats: 14.666666666666666 gives
    14.67; 2.675, which lies below the decimal 2.675, gives 2.67; the ties
    0.125 and 0.375 go to the even digit, 0.12 and 0.38; and 15.0 stays. *)
Lemma py_round_two_decimals :
  py_round 0x1.d555555555555p+3 2 = 0x1.d570a3d70a3d7p+3%float /\
  py_round 0x1.5666666666666p+1 2 = 0x1.55c28f5c28f5cp+1%float /\
  py_round 0x1p-3 2 = 0x1.eb851eb851eb8p-4%float /\
  py_round 0x1.8p-2 2 = 0x1.851eb851eb852p-2%float /\
  py_round 15 2 = 15%float.
Proof. repeat split; vm_compute; reflexivity. Qed.

(** Without a heart-rate table no heart-rate row is asked for; and on a
    day whose respiration values 14, 15, 15 average to 14.666666666666666
    the row that is asked for carries 14.67, the mean rounded to two
    decimals and not the mean itself. *)
Lemma sync_health_rows_only_if_sample :
  (forall ev,
      In ev (trace_of
               (with_environ sample_world
                  (delete "NOTION_HEART_RATE_DB_ID" sample_environ))) ->
      ~ creates_row "Resting Heart Rate" ev) /\
  In (EvPagesCreate (notion_of thirds_world)
        (Page (Some "resp-db") "2024-05-01" "Average Respiration"
           (PyFloat 0x1.d570a3d70a3d7p+3)))
     (trace_of thirds_world) /\
  exists resp avg,
    garmin_get_respiration_data thirds_world (garmin_of thirds_world)
      "2024-05-01" = Ok (Some resp) /\
    get_average_respiration resp = Ok (Some avg) /\
    avg = 0x1.d555555555555p+3%float /\
    PyFloat 0x1.d570a3d70a3d7p+3 = PyFloat (py_round avg 2) /\
    PyFloat 0x1.d570a3d70a3d7p+3 <> PyFloat avg.
Proof.
  assert (In (EvPagesCreate (notion_of thirds_world)
                (Page (Some "resp-db") "2024-05-01" "Average Respiration"
                   (PyFloat 0x1.d570a3d70a3d7p+3)))
             (trace_of thirds_world)) as Hin
    by (vm_compute; tauto).
  split; [|split; [exact Hin|]].
  - apply (proj1 (proj2 (sync_health_rows_only_if _))).
    vm_compute. reflexivity.
  - destruct (proj1 (sync_health_rows_only_if thirds_world) _ _ Hin)
      as [(hr & _ & _ & _ & _ & Hp)
         |(resp & avg & Hf & _ & _ & Ha & _ & _ & Hv)].
    + discriminate Hp.
    + exists resp, avg.
      assert (avg = 0x1.d555555555555p+3%float) as Havg.
      { cbn in Hf. injection Hf as <-.
        vm_compute in Ha. now injection Ha as <-. }
      split; [exact Hf|]. split; [exact Ha|]. split; [exact Havg|].
      split; [exact Hv|].
      rewrite Havg. intros E.
      apply (f_equal (fun n => match n with
                               | PyFloat f => Prim2SF f
                               | PyInt _ => S754_nan
                               end)) in E.
      vm_compute in E. discriminate E.
Defined.

(** The end-to-end example of the specification: the sample day gives the
    mean 15.0, uploaded as 15.0, and a heart-rate record without a resting
    value is uploaded as 0. *)
Example sync_health_sample_world :
  sync_health sample_world =
    ([EvLogin (Garmin (Some "runner@example.org") (Some "secret"));
      EvGetHeartRates (Garmin (Some "runner@example.org") (Some "secret"))
        "2024-05-01";
      EvPagesCreate (Client (Some "ntn-token"))
        (Page (Some "hr-db") "2024-05-01" "Resting Heart Rate" (PyInt 0));
      EvPrint "Uploaded heart‑rate data for 2024-05-01";
      EvGetRespirationData
        (Garmin (Some "runner@example.org") (Some "secret")) "2024-05-01";
      EvPagesCreate (Client (Some "ntn-token"))
        (Page (Some "resp-db") "2024-05-01" "Average Respiration"
           (PyFloat 15));
      EvPrint "Uploaded respiration data for 2024-05-01"], Ok tt).
Proof. vm_compute. reflexivity. Qed.

(** * Further properties of the aggregator *)

Lemma py_sum_from_floats (vs : list number) : forall a : float,
  Forall is_float vs ->
  py_sum_from (PyFloat a) vs =
    Ok (PyFloat (fold_left PrimFloat.add (floats_of vs) a)).
Proof.
  induction vs as [|v vs IH]; intros a Hall; [reflexivity|].
  apply Forall_cons in Hall as [[f ->] Hall].
  cbn. now rewrite (IH _ Hall).
Qed.

Lemma py_float_of_int_zero : py_float_of_int 0 = Ok 0%float.
Proof. vm_compute. reflexivity. Qed.

(** X1. Int values are added exactly and rounded once, by the division: the
    mean of ints is the float nearest to the exact quotient of their sum
    by their count, and the call raises exactly when that quotient is
    beyond the floats. *)
Theorem get_average_respiration_ints (respiration_data : list dict)
    (Hints : Forall is_int (present_values respiration_data))
    (Hne : present_values respiration_data <> []) :
  let sum := int_total (present_values respiration_data) in
  let count := Z.of_nat (length (present_values respiration_data)) in
  get_average_respiration respiration_data =
    if Z.abs sum <? count * float_overflow_bound
    then Ok (Some (float_of_quotient sum count))
    else Raise (OverflowError
                  "integer division result too large for a float").
Proof.
  intros sum count. subst sum count.
  rewrite get_average_respiration_spec.
  destruct (present_values respiration_data) as [|v vs]; [congruence|].
  unfold mean_of. rewrite (py_sum_from_ints _ 0 Hints). cbn [mbind result_bind].
  rewrite Z.add_0_l. cbn [py_truediv].
  set (n := Z.of_nat (length (v :: vs))).
  assert (0 < n) as Hn by (subst n; cbn [length]; lia).
  destruct (Z.eqb_spec n 0) as [E|_]; [lia|].
  rewrite (Z.abs_eq n) by lia.
  destruct (Z.abs (int_total (v :: vs)) <? n * float_overflow_bound);
    reflexivity.
Qed.

Lemma get_average_respiration_ints_sample :
  get_average_respiration sample_day = Ok (Some (float_of_quotient 30 2)) /\
  get_average_respiration huge_day =
    Raise (OverflowError "integer division result too large for a float").
Proof.
  split.
  - rewrite (get_average_respiration_ints sample_day).
    + vm_compute. reflexivity.
    + vm_compute. constructor; [exists 14; reflexivity|].
      constructor; [exists 16; reflexivity|]. constructor.
    + vm_compute. discriminate.
  - rewrite (get_average_respiration_ints huge_day).
    + vm_compute. reflexivity.
    + vm_compute. constructor; [eexists; reflexivity|]. constructor.
    + vm_compute. discriminate.
Defined.

(** X2. Float values never make the aggregator raise: they are added from the
    left onto +0.0 with one rounding at each step, and the sum is
    divided by the count as a float.  Infinities and NaN go through the
    same arithmetic. *)
Theorem get_average_respiration_floats (respiration_data : list dict)
    (Hfloats : Forall is_float (present_values respiration_data))
    (Hne : present_values respiration_data <> [])
    (Hlen : Z.of_nat (length (present_values respiration_data))
            < float_overflow_bound) :
  get_average_respiration respiration_data =
    Ok (Some (fold_left PrimFloat.add
                (floats_of (present_values respiration_data)) 0
              / float_of_Z
                  (Z.of_nat (length (present_values respiration_data))))%float).
Proof.
  rewrite get_average_respiration_spec.
  destruct (present_values respiration_data) as [|v vs]; [congruence|].
  apply Forall_cons in Hfloats as [[f ->] Hfloats].
  unfold mean_of. cbn [py_sum_from py_add].
  rewrite py_float_of_int_zero. cbn [mbind result_bind].
  rewrite (py_sum_from_floats _ _ Hfloats). cbn [mbind result_bind py_truediv].
  set (n := Z.of_nat (length (PyFloat f :: vs))) in *.
  assert (0 < n) as Hn by (subst n; cbn [length]; lia).
  destruct (Z.eqb_spec n 0) as [E|_]; [lia|].
  rewrite py_float_of_int_returns by lia. reflexivity.
Qed.

Lemma get_average_respiration_floats_sample :
  get_average_respiration tenths_ascending =
    Ok (Some (fold_left PrimFloat.add
                [0x1.999999999999ap-4; 0x1.999999999999ap-3;
                 0x1.3333333333333p-2] 0 / 3)%float).
Proof.
  rewrite (get_average_respiration_floats tenths_ascending).
  - vm_compute. reflexivity.
  - vm_compute. repeat (constructor; [eexists; reflexivity|]). constructor.
  - vm_compute. discriminate.
  - vm_compute. reflexivity.
Defined.

(** X3. The aggregator raises nothing but Python's OverflowError, and only
    when the int values (or the number of records) are beyond the
    floats. *)
Theorem get_average_respiration_raises_overflow
    (respiration_data : list dict) (e : exn)
    (Hraise : get_average_respiration respiration_data = Raise e) :
  (exists msg, e = OverflowError msg) /\
  (float_overflow_bound <= int_magnitude (present_values respiration_data) \/
   float_overflow_bound
     <= Z.of_nat (length (present_values respiration_data))).
Proof.
  split.
  - rewrite get_average_respiration_spec in Hraise.
    destruct (present_values respiration_data) as [|v vs] eqn:E;
      [discriminate|].
    destruct (mean_of (v :: vs)) as [q|e'] eqn:Hm; [discriminate|].
    injection Hraise as <-. eapply mean_of_raises; [|exact Hm]. discriminate.
  - destruct (Z.le_gt_cases float_overflow_bound
                (int_magnitude (present_values respiration_data)))
      as [H|Hmag]; [now left|].
    destruct (Z.le_gt_cases float_overflow_bound
                (Z.of_nat (length (present_values respiration_data))))
      as [H|Hlen]; [now right|].
    destruct (get_average_respiration_returns respiration_data)
      as [r Hr]; [lia|lia|congruence].
Qed.

Lemma get_average_respiration_raises_overflow_sample :
  get_average_respiration huge_day =
    Raise (OverflowError "integer division result too large for a float") /\
  (float_overflow_bound <= int_magnitude (present_values huge_day) \/
   float_overflow_bound <= Z.of_nat (length (present_values huge_day))).
Proof.
  assert (get_average_respiration huge_day =
            Raise (OverflowError
                     "integer division result too large for a float")) as H
    by (vm_compute; reflexivity).
  split; [exact H|].
  exact (proj2 (get_average_respiration_raises_overflow huge_day _ H)).
Defined.

(** * Further properties of the orchestrator *)

(** How the heart-rate block of a run ends: normally, unless its upload
    is made and raises. *)
Lemma heart_rate_block_raises (w : world) (e : exn) :
  snd (heart_rate_block (garmin_of w) (notion_of w) (today_isoformat w)
         (environ w !! "NOTION_HEART_RATE_DB_ID") w) = Raise e <->
  heart_rate_upload_raises w e.
Proof.
  rewrite heart_rate_block_run. unfold heart_rate_upload_raises.
  fold (heart_rate_page w).
  destruct (garmin_get_heart_rates w _ _) as [[hr|]|e'] eqn:Hf; cbn [snd].
  - destruct (dict_truthy hr) eqn:Hd,
      (str_truthy (environ w !! "NOTION_HEART_RATE_DB_ID")) eqn:Hs;
      cbn [andb snd].
    2-4: split; [discriminate|];
      intros (hr' & [= <-] & Hd' & Hs' & _); congruence.
    cbn zeta. fold (heart_rate_page w hr).
    destruct (notion_pages_create w (notion_of w) (heart_rate_page w hr))
      as [e'|] eqn:Hc; cbn [snd].
    + split.
      * intros [= <-]. exists hr. auto.
      * intros (hr' & [= <-] & _ & _ & Hc'). congruence.
    + split; [discriminate|].
      intros (hr' & [= <-] & _ & _ & Hc'). congruence.
  - split; [discriminate|]. intros (hr' & [=] & _).
  - split; [discriminate|]. intros (hr' & [=] & _).
Qed.

Lemma heart_rate_block_completes (w : world) :
  (forall e, ~ heart_rate_upload_raises w e) ->
  snd (heart_rate_block (garmin_of w) (notion_of w) (today_isoformat w)
         (environ w !! "NOTION_HEART_RATE_DB_ID") w) = Ok tt.
Proof.
  intros Hno.
  destruct (snd (heart_rate_block _ _ _ _ w)) as [[]|e] eqn:E;
    [reflexivity|].
  apply heart_rate_block_raises in E. now apply Hno in E.
Qed.

(** X5. A refused log-in ends the run: the exception of [garmin.login()] is
    the outcome, and the log-in is the only call that was made. *)
Theorem sync_health_login_raises (w : world) (e : exn)
    (Hcred : credentials_ok w = true)
    (Hlogin : garmin_login w (garmin_of w) = Some e) :
  sync_health w = ([EvLogin (garmin_of w)], Raise e).
Proof. now rewrite sync_health_run, Hcred, Hlogin. Qed.

Lemma sync_health_login_raises_sample :
  sync_health login_refused =
    ([EvLogin (Garmin (Some "runner@example.org") (Some "secret"))],
     Raise (ServiceError "401 Unauthorized")).
Proof.
  rewrite (sync_health_login_raises login_refused
             (ServiceError "401 Unauthorized") eq_refl eq_refl).
  vm_compute. reflexivity.
Defined.

(** X6. When the respiration fetch raises, the exception is caught: its
    diagnostic is the last thing the run does, no respiration row is
    asked for, and the run ends normally unless the heart-rate upload had
    raised before. *)
Theorem sync_health_respiration_fetch_raises (w : world) (e : exn)
    (Hcred : credentials_ok w = true)
    (Hlogin : garmin_login w (garmin_of w) = None)
    (Hfetch : garmin_get_respiration_data w (garmin_of w)
                (today_isoformat w) = Raise e) :
  (forall ev, In ev (trace_of w) ->
              ~ creates_row "Average Respiration" ev) /\
  ((forall e', ~ heart_rate_upload_raises w e') ->
   outcome_of w = Ok tt /\
   exists before,
     trace_of w =
       before ++ [EvGetRespirationData (garmin_of w) (today_isoformat w);
                  EvPrint (respiration_fetch_failed e)]).
Proof.
  split.
  - intros ev Hev (notion & pg & -> & Hprop).
    apply pages_create_event in Hev
      as [_ [(hr & _ & _ & _ & ->)|(resp & avg & Hf & _)]].
    + discriminate.
    + congruence.
  - intros Hno. apply heart_rate_block_completes in Hno.
    unfold outcome_of, trace_of.
    rewrite sync_health_run, Hcred, Hlogin, respiration_block_run, Hfetch.
    destruct (heart_rate_block _ _ _ _ w) as [t1 r1]. cbn [snd] in Hno.
    subst r1. cbn [fst snd]. split; [reflexivity|].
    exists (EvLogin (garmin_of w) :: t1). reflexivity.
Qed.

Lemma sync_health_respiration_fetch_raises_sample :
  outcome_of respiration_down = Ok tt /\
  exists before,
    trace_of respiration_down =
      before ++
      [EvGetRespirationData (garmin_of respiration_down) "2024-05-01";
       EvPrint "Could not fetch respiration data: 503 Service Unavailable"].
Proof.
  destruct (proj2 (sync_health_respiration_fetch_raises respiration_down
                     (ServiceError "503 Service Unavailable")
                     eq_refl eq_refl eq_refl)) as [Hout [before Htr]].
  - intros e' (hr & _ & _ & _ & Hc). discriminate Hc.
  - split; [exact Hout|]. exists before. rewrite Htr.
    vm_compute. reflexivity.
Defined.

(** X7. A fetch that brings nothing ([None], an empty dict, a list without
    any value) is no error and creates no row: with nothing fetched for
    either metric the run is the log-in and the two fetches, and it ends
    normally, whatever tables are configured. *)
Theorem sync_health_no_data (w : world)
    (Hcred : credentials_ok w = true)
    (Hlogin : garmin_login w (garmin_of w) = None)
    (Hhr : no_heart_rate_data
             (garmin_get_heart_rates w (garmin_of w) (today_isoformat w)))
    (Hresp : no_respiration_data
               (garmin_get_respiration_data w (garmin_of w)
                  (today_isoformat w))) :
  sync_health w =
    ([EvLogin (garmin_of w);
      EvGetHeartRates (garmin_of w) (today_isoformat w);
      EvGetRespirationData (garmin_of w) (today_isoformat w)], Ok tt).
Proof.
  rewrite sync_health_run, Hcred, Hlogin.
  rewrite heart_rate_block_run, respiration_block_run.
  assert (forall resp, Forall field_absent resp ->
                       get_average_respiration resp = Ok None) as Hnone.
  { intros resp Hall.
    now rewrite get_average_respiration_spec, present_values_absent. }
  destruct Hhr as [-> | ->], Hresp as [-> | (resp & -> & Hall)];
    try reflexivity;
    rewrite (Hnone _ Hall);
    destruct (list_truthy resp && _); reflexivity.
Qed.

Lemma sync_health_no_data_sample :
  sync_health empty_day =
    ([EvLogin (Garmin (Some "runner@example.org") (Some "secret"));
      EvGetHeartRates (Garmin (Some "runner@example.org") (Some "secret"))
        "2024-05-01";
      EvGetRespirationData
        (Garmin (Some "runner@example.org") (Some "secret")) "2024-05-01"],
     Ok tt).
Proof.
  rewrite (sync_health_no_data empty_day eq_refl eq_refl).
  - vm_compute. reflexivity.
  - right. reflexivity.
  - right. exists [∅; respiration_record PyNone]. split; [reflexivity|].
    constructor; [left; reflexivity|].
    constructor; [right; reflexivity|]. constructor.
Defined.

(** X8. When everything answers, a run is seven calls in this order: the
    log-in, the heart-rate fetch, its row and its success line, the
    respiration fetch, its row and its success line; and it ends
    normally. *)
Theorem sync_health_full_run (w : world) (hr : dict) (resp : list dict)
    (avg : float)
    (Hcred : credentials_ok w = true)
    (Hlogin : garmin_login w (garmin_of w) = None)
    (Hhr : garmin_get_heart_rates w (garmin_of w) (today_isoformat w)
           = Ok (Some hr))
    (Hhr_data : dict_truthy hr = true)
    (Hhr_db : str_truthy (environ w !! "NOTION_HEART_RATE_DB_ID") = true)
    (Hhr_row : notion_pages_create w (notion_of w) (heart_rate_page w hr)
               = None)
    (Hresp : garmin_get_respiration_data w (garmin_of w)
               (today_isoformat w) = Ok (Some resp))
    (Hresp_data : list_truthy resp = true)
    (Hresp_db : str_truthy (environ w !! "NOTION_RESPIRATION_DB_ID")
                = true)
    (Havg : get_average_respiration resp = Ok (Some avg))
    (Hresp_row : notion_pages_create w (notion_of w)
                   (respiration_page w avg) = None) :
  sync_health w =
    ([EvLogin (garmin_of w);
      EvGetHeartRates (garmin_of w) (today_isoformat w);
      EvPagesCreate (notion_of w) (heart_rate_page w hr);
      EvPrint (heart_rate_uploaded (today_isoformat w));
      EvGetRespirationData (garmin_of w) (today_isoformat w);
      EvPagesCreate (notion_of w) (respiration_page w avg);
      EvPrint (respiration_uploaded (today_isoformat w))], Ok tt).
Proof.
  unfold heart_rate_page in *. unfold respiration_page in *.
  rewrite sync_health_run, Hcred, Hlogin.
  rewrite heart_rate_block_run, Hhr, Hhr_data, Hhr_db.
  cbn [andb]. cbn zeta. rewrite Hhr_row.
  rewrite respiration_block_run, Hresp, Hresp_data, Hresp_db, Havg.
  cbn [andb]. cbn zeta. rewrite Hresp_row. reflexivity.
Qed.

Lemma sync_health_full_run_sample :
  sync_health full_world =
    ([EvLogin (Garmin (Some "runner@example.org") (Some "secret"));
      EvGetHeartRates (Garmin (Some "runner@example.org") (Some "secret"))
        "2024-05-01";
      EvPagesCreate (Client (Some "ntn-token"))
        (Page (Some "hr-db") "2024-05-01" "Resting Heart Rate" (PyInt 52));
      EvPrint "Uploaded heart‑rate data for 2024-05-01";
      EvGetRespirationData
        (Garmin (Some "runner@example.org") (Some "secret")) "2024-05-01";
      EvPagesCreate (Client (Some "ntn-token"))
        (Page (Some "resp-db") "2024-05-01" "Average Respiration"
           (PyFloat 15));
      EvPrint "Uploaded respiration data for 2024-05-01"], Ok tt).
Proof.
  rewrite (sync_health_full_run full_world
             {[ "restingHeartRate" := PyNum (PyInt 52) ]} sample_day 15%float)
    by (vm_compute; reflexivity).
  vm_compute. reflexivity.
Defined.

(** X9. What can end a run with an exception: the configuration error, the
    log-in, a row creation, or the aggregation.  An exception of a
    fetch never does. *)
Theorem sync_health_raises (w : world) (e : exn)
    (Hraise : outcome_of w = Raise e) :
  (credentials_ok w = false /\ e = missing_credentials) \/
  (credentials_ok w = true /\
   (garmin_login w (garmin_of w) = Some e \/
    (garmin_login w (garmin_of w) = None /\
     (heart_rate_upload_raises w e \/
      aggregation_raises w e \/
      respiration_upload_raises w e)))).
Proof.
  unfold outcome_of in Hraise. rewrite sync_health_run in Hraise.
  destruct (credentials_ok w); [right; split; [reflexivity|]|].
  2: { left. injection Hraise as <-. auto. }
  destruct (garmin_login w (garmin_of w)) as [e'|] eqn:Hlogin.
  { left. now injection Hraise as <-. }
  right. split; [reflexivity|].
  pose proof (heart_rate_block_raises w e) as Hhr.
  destruct (heart_rate_block _ _ _ _ w) as [t1 [[]|e1]]; cbn [snd] in *.
  2: { left. apply Hhr. now injection Hraise as <-. }
  clear Hhr. right.
  rewrite respiration_block_run in Hraise.
  unfold aggregation_raises, respiration_upload_raises.
  destruct (garmin_get_respiration_data w _ _) as [[resp|]|e2] eqn:Hf;
    cbn [snd] in Hraise; try discriminate.
  destruct (list_truthy resp) eqn:Hd,
    (str_truthy (environ w !! "NOTION_RESPIRATION_DB_ID")) eqn:Hs;
    cbn [andb snd] in Hraise; try discriminate.
  destruct (get_average_respiration resp) as [[avg|]|e2] eqn:Ha;
    cbn [snd] in Hraise; try discriminate.
  - cbn zeta in Hraise. fold (respiration_page w avg) in Hraise.
    destruct (notion_pages_create w (notion_of w) (respiration_page w avg))
      as [e2|] eqn:Hc; cbn [snd] in Hraise; [|discriminate].
    injection Hraise as <-. right. exists resp, avg. auto.
  - injection Hraise as <-. left. exists resp. auto.
Qed.

Lemma sync_health_raises_sample :
  aggregation_raises huge_world
    (OverflowError "integer division result too large for a float").
Proof.
  destruct (sync_health_raises huge_world
              (OverflowError "integer division result too large for a float"))
    as [[H _]|[_ [H|[_ [H|[H|H]]]]]].
  - vm_compute. reflexivity.
  - discriminate H.
  - discriminate H.
  - destruct H as (hr & H & _). discriminate H.
  - exact H.
  - destruct H as (resp & avg & Hf & _ & _ & Ha & _).
    injection Hf as <-. vm_compute in Ha. discriminate Ha.
Defined.

(** Case analysis of a run along the answers of the world. *)
Ltac run_cases :=
  unfold trace_of, outcome_of;
  rewrite sync_health_run, ?heart_rate_block_run, ?respiration_block_run;
  repeat (cbn zeta; cbn [andb fst snd app];
    match goal with
    | |- context [if credentials_ok ?w then _ else _] =>
        destruct (credentials_ok w) eqn:?
    | |- context [match garmin_login ?w ?g with _ => _ end] =>
        destruct (garmin_login w g) eqn:?
    | |- context [match garmin_get_heart_rates ?w ?g ?d with _ => _ end] =>
        destruct (garmin_get_heart_rates w g d) as [[?|]|?] eqn:?
    | |- context [match garmin_get_respiration_data ?w ?g ?d
                  with _ => _ end] =>
        destruct (garmin_get_respiration_data w g d) as [[?|]|?] eqn:?
    | |- context [dict_truthy ?hr && str_truthy ?s] =>
        destruct (dict_truthy hr) eqn:?; destruct (str_truthy s) eqn:?
    | |- context [list_truthy ?l && str_truthy ?s] =>
        destruct (list_truthy l) eqn:?; destruct (str_truthy s) eqn:?
    | |- context [match get_average_respiration ?r with _ => _ end] =>
        destruct (get_average_respiration r) as [[?|]|?] eqn:?
    | |- context [match notion_pages_create ?w ?n ?pg with _ => _ end] =>
        destruct (notion_pages_create w n pg) eqn:?
    end);
  cbn zeta; cbn [andb fst snd app].

(** X10. No call is ever repeated: in any run there is at most one log-in, one
    fetch of each metric and one row creation for each table. *)
Theorem sync_health_no_retries (w : world) :
  (calls is_login (trace_of w) <= 1)%nat /\
  (calls is_get_heart_rates (trace_of w) <= 1)%nat /\
  (calls is_get_respiration_data (trace_of w) <= 1)%nat /\
  (calls (is_pages_create "Resting Heart Rate") (trace_of w) <= 1)%nat /\
  (calls (is_pages_create "Average Respiration") (trace_of w) <= 1)%nat.
Proof.
  run_cases; repeat split; vm_compute; lia.
Qed.

(** X11. Every call of a run is made on the clients built from the
    environment (the Garmin client from GARMIN_EMAIL and GARMIN_PASSWORD,
    the Notion client from NOTION_TOKEN), and every fetch and every row
    carries the one date the run computed. *)
Theorem sync_health_configured_calls (w : world) :
  Forall (configured_call w) (trace_of w).
Proof.
  run_cases; repeat constructor.
Qed.

(** X12. The calls of a run come in the order of the source: the log-in, then
    what the heart-rate block calls, then what the respiration block
    calls.  Nothing of the heart-rate upload happens after the
    respiration fetch. *)
Theorem sync_health_order (w : world) :
  trace_of w = [] \/
  exists heart resp,
    trace_of w = EvLogin (garmin_of w) :: heart ++ resp /\
    Forall heart_rate_event heart /\
    Forall respiration_event resp.
Proof.
  assert (Forall heart_rate_event
            (fst (heart_rate_block (garmin_of w) (notion_of w)
                    (today_isoformat w)
                    (environ w !! "NOTION_HEART_RATE_DB_ID") w))) as Hheart.
  { rewrite heart_rate_block_run.
    destruct (garmin_get_heart_rates w _ _) as [[hr|]|e];
      [|repeat constructor..].
    destruct (dict_truthy hr && _); [|repeat constructor].
    cbn zeta. destruct (notion_pages_create w _ _); repeat constructor. }
  assert (Forall respiration_event
            (fst (respiration_block (garmin_of w) (notion_of w)
                    (today_isoformat w)
                    (environ w !! "NOTION_RESPIRATION_DB_ID") w))) as Hresp.
  { rewrite respiration_block_run.
    destruct (garmin_get_respiration_data w _ _) as [[resp|]|e];
      [|repeat constructor..].
    destruct (list_truthy resp && _); [|repeat constructor].
    destruct (get_average_respiration resp) as [[avg|]|e];
      [|repeat constructor..].
    cbn zeta. destruct (notion_pages_create w _ _); repeat constructor. }
  unfold trace_of. rewrite sync_health_run.
  destruct (credentials_ok w); [right|now left].
  destruct (garmin_login w (garmin_of w)).
  { exists [], []. repeat constructor. }
  destruct (heart_rate_block _ _ _ _ w) as [t1 [[]|e]]; cbn [fst] in *.
  - destruct (respiration_block _ _ _ _ w) as [t2 r]. cbn [fst] in *.
    exists t1, t2. auto.
  - exists t1, []. rewrite app_nil_r. repeat split; auto.
Qed.

(** X13. A success line is printed only for a row that Notion accepted: the
    heart-rate line only after the heart-rate row creation returned, the
    respiration line only after the respiration row creation returned. *)
Theorem sync_health_success_lines (w : world) :
  (In (EvPrint (heart_rate_uploaded (today_isoformat w))) (trace_of w) ->
   exists hr,
     garmin_get_heart_rates w (garmin_of w) (today_isoformat w)
       = Ok (Some hr) /\
     In (EvPagesCreate (notion_of w) (heart_rate_page w hr)) (trace_of w) /\
     notion_pages_create w (notion_of w) (heart_rate_page w hr) = None) /\
  (In (EvPrint (respiration_uploaded (today_isoformat w))) (trace_of w) ->
   exists resp avg,
     garmin_get_respiration_data w (garmin_of w) (today_isoformat w)
       = Ok (Some resp) /\
     get_average_respiration resp = Ok (Some avg) /\
     In (EvPagesCreate (notion_of w) (respiration_page w avg))
       (trace_of w) /\
     notion_pages_create w (notion_of w) (respiration_page w avg) = None).
Proof.
  unfold heart_rate_page, respiration_page.
  split; run_cases; cbn [In]; intros H;
    repeat match goal with
           | H : _ \/ _ |- _ => destruct H as [H|H]
           | H : False |- _ => destruct H
           | H : EvPrint _ = EvPrint _ |- _ =>
               apply (f_equal (fun ev => match ev with
                                         | EvPrint s => s
                                         | _ => String.EmptyString
                                         end)) in H;
               cbn in H; try discriminate H
           end;
    try discriminate;
    repeat eexists;
    first [reflexivity | eassumption
          | repeat (first [left; reflexivity | right])].
Qed.

Lemma sync_health_success_lines_sample :
  exists hr,
    garmin_get_heart_rates full_world (garmin_of full_world) "2024-05-01"
      = Ok (Some hr) /\
    In (EvPagesCreate (notion_of full_world) (heart_rate_page full_world hr))
      (trace_of full_world) /\
    notion_pages_create full_world (notion_of full_world)
      (heart_rate_page full_world hr) = None.
Proof.
  apply (proj1 (sync_health_success_lines full_world)).
  vm_compute. tauto.
Defined.



(** X15. When exactly a row creation is called.  The heart-rate one: the
    credentials are there, the log-in succeeded, the fetched dict is not
    empty and the table identifier is not empty.  The respiration one:
    the same for its data and table, the heart-rate upload did not raise,
    and the aggregator gave a value. *)
Theorem sync_health_rows_iff (w : world) :
  ((exists ev, In ev (trace_of w) /\ creates_row "Resting Heart Rate" ev) <->
   credentials_ok w = true /\
   garmin_login w (garmin_of w) = None /\
   exists hr,
     garmin_get_heart_rates w (garmin_of w) (today_isoformat w)
       = Ok (Some hr) /\
     dict_truthy hr = true /\
     str_truthy (environ w !! "NOTION_HEART_RATE_DB_ID") = true) /\
  ((exists ev, In ev (trace_of w) /\
               creates_row "Average Respiration" ev) <->
   credentials_ok w = true /\
   garmin_login w (garmin_of w) = None /\
   (forall e, ~ heart_rate_upload_raises w e) /\
   exists resp avg,
     garmin_get_respiration_data w (garmin_of w) (today_isoformat w)
       = Ok (Some resp) /\
     list_truthy resp = true /\
     str_truthy (environ w !! "NOTION_RESPIRATION_DB_ID") = true /\
     get_average_respiration resp = Ok (Some avg)).
Proof.
  split; split.
  - intros (ev & Hev & notion & pg & -> & Hprop).
    pose proof (sync_health_event _ _ Hev) as [Hcred _].
    split; [exact Hcred|].
    destruct (garmin_login w (garmin_of w)) as [e|] eqn:Hlogin.
    { unfold trace_of in Hev.
      rewrite sync_health_run, Hcred, Hlogin in Hev.
      destruct Hev as [Hev|[]]. discriminate. }
    split; [reflexivity|].
    apply pages_create_event in Hev
      as [_ [(hr & Hf & Hd & Hs & ->)|(resp & avg & _ & _ & _ & _ & ->)]].
    + eauto.
    + discriminate.
  - intros (Hcred & Hlogin & hr & Hf & Hd & Hs).
    exists (EvPagesCreate (notion_of w) (heart_rate_page w hr)).
    split; [|exists (notion_of w), (heart_rate_page w hr); auto].
    unfold trace_of, heart_rate_page.
    rewrite sync_health_run, Hcred, Hlogin, heart_rate_block_run.
    rewrite Hf, Hd, Hs. cbn [andb]. cbn zeta.
    destruct (notion_pages_create w _ _).
    + cbn. tauto.
    + destruct (respiration_block _ _ _ _ w). cbn. tauto.
  - intros (ev & Hev & notion & pg & -> & Hprop).
    pose proof (sync_health_event _ _ Hev) as [Hcred _].
    split; [exact Hcred|].
    destruct (garmin_login w (garmin_of w)) as [e|] eqn:Hlogin.
    { unfold trace_of in Hev.
      rewrite sync_health_run, Hcred, Hlogin in Hev.
      destruct Hev as [Hev|[]]. discriminate. }
    split; [reflexivity|]. split.
    + intros e Hup. apply heart_rate_block_raises in Hup.
      unfold trace_of in Hev.
      rewrite sync_health_run, Hcred, Hlogin in Hev.
      destruct (heart_rate_block _ _ _ _ w) as [t1 r1] eqn:Hb.
      cbn [snd] in Hup. subst r1. cbn [fst] in Hev.
      destruct Hev as [Hev|Hev]; [discriminate|].
      assert (In (EvPagesCreate notion pg)
                (fst (heart_rate_block (garmin_of w) (notion_of w)
                        (today_isoformat w)
                        (environ w !! "NOTION_HEART_RATE_DB_ID") w)))
        as Hin by now rewrite Hb.
      apply heart_rate_block_event in Hin
        as [Hin|[(e' & _ & Hin)|(hr & _ & _ & _ & [Hin|[_ Hin]])]];
        try discriminate.
      injection Hin as _ ->. discriminate.
    + apply pages_create_event in Hev
        as [_ [(hr & _ & _ & _ & ->)|(resp & avg & Hf & Hd & Hs & Ha & _)]].
      * discriminate.
      * eauto 10.
  - intros (Hcred & Hlogin & Hno & resp & avg & Hf & Hd & Hs & Ha).
    exists (EvPagesCreate (notion_of w) (respiration_page w avg)).
    split; [|exists (notion_of w), (respiration_page w avg); auto].
    apply heart_rate_block_completes in Hno.
    pose proof (respiration_block_uploads (garmin_of w) (notion_of w)
                  (today_isoformat w) _ w resp avg Hf Hd Hs Ha) as Hin.
    unfold trace_of. rewrite sync_health_run, Hcred, Hlogin.
    destruct (heart_rate_block _ _ _ _ w) as [t1 r1]. cbn [snd] in Hno.
    subst r1.
    destruct (respiration_block _ _ _ _ w) as [t2 r2]. cbn [fst] in *.
    right. apply in_or_app. right. exact Hin.
Qed.

Lemma sync_health_rows_iff_sample :
  (exists ev, In ev (trace_of full_world) /\
              creates_row "Resting Heart Rate" ev) /\
  (exists ev, In ev (trace_of full_world) /\
              creates_row "Average Respiration" ev).
Proof.
  split.
  - apply (proj1 (sync_health_rows_iff full_world)).
    split; [reflexivity|]. split; [reflexivity|].
    exists {[ "restingHeartRate" := PyNum (PyInt 52) ]}.
    repeat split; reflexivity.
  - apply (proj2 (sync_health_rows_iff full_world)).
    split; [reflexivity|]. split; [reflexivity|]. split.
    + intros e (hr & _ & _ & _ & Hc). discriminate Hc.
    + exists sample_day, 15%float. repeat split; vm_compute; reflexivity.
Defined.

(** X16. Once logged in, a run always asks for the heart-rate data, exactly
    once; and it asks for the respiration data, exactly once, unless the
    heart-rate row creation raised: a failing or empty heart-rate fetch
    never keeps the respiration data from being fetched. *)
Theorem sync_health_fetches (w : world)
    (Hcred : credentials_ok w = true)
    (Hlogin : garmin_login w (garmin_of w) = None) :
  calls is_get_heart_rates (trace_of w) = 1%nat /\
  (calls is_get_respiration_data (trace_of w) = 1%nat <->
   forall e, ~ heart_rate_upload_raises w e) /\
  ((exists e, heart_rate_upload_raises w e) ->
   calls is_get_respiration_data (trace_of w) = 0%nat).
Proof.
  unfold heart_rate_upload_raises, heart_rate_page.
  run_cases; try congruence.
  all: split; [vm_compute; reflexivity|].
  all: split; [split|].
  all: try (intros _; vm_compute; reflexivity).
  all: try (intros Hc; vm_compute in Hc; discriminate Hc).
  all: try (intros _ ? (? & Hf & Hd & Hs & Hc); congruence).
  all: try (intros (? & ? & Hf & Hd & Hs & Hc); congruence).
  all: intros Hno; exfalso; eapply Hno; eexists; eauto.
Qed.

Lemma sync_health_fetches_sample :
  calls is_get_heart_rates (trace_of heart_rate_down) = 1%nat /\
  calls is_get_respiration_data (trace_of heart_rate_down) = 1%nat /\
  calls is_get_respiration_data (trace_of notion_down) = 0%nat.
Proof.
  split; [|split].
  - apply (proj1 (sync_health_fetches heart_rate_down eq_refl eq_refl)).
  - apply (proj1 (proj2 (sync_health_fetches heart_rate_down
                           eq_refl eq_refl))).
    intros e (hr & Hf & _). discriminate Hf.
  - apply (proj2 (proj2 (sync_health_fetches notion_down eq_refl eq_refl))).
    exists (ServiceError "502 Bad Gateway"),
      {[ "restingHeartRate" := PyNum (PyInt 52) ]}.
    repeat split; reflexivity.
Defined.

(** X4. The aggregator reads one key of each record and nothing else: two
    sequences of records that agree, record by record, on
    [averageRespirationValue] have the same average, whatever other keys
    they hold. *)
Theorem get_average_respiration_reads_one_key (l l' : list dict)
    (Hsame : Forall2
               (fun entry entry' : dict =>
                  entry !! "averageRespirationValue" =
                  entry' !! "averageRespirationValue") l l') :
  get_average_respiration l = get_average_respiration l'.
Proof.
  rewrite !get_average_respiration_spec.
  assert (present_values l = present_values l') as ->; [|reflexivity].
  induction Hsame as [|entry entry' l l' Hkey _ IH]; [reflexivity|].
  unfold present_values in *. cbn [omap list_omap].
  assert (entry_value entry = entry_value entry') as ->
    by (unfold entry_value, dict_get; now rewrite Hkey).
  now rewrite IH.
Qed.

Lemma get_average_respiration_reads_one_key_sample :
  get_average_respiration
    [<["startTimeGMT" := PyNum (PyInt 1714521600)]>
       (respiration_record (PyNum (PyInt 14)));
     <["sleepLevel" := PyNone]> (respiration_record (PyNum (PyInt 16)))] =
  get_average_respiration
    [respiration_record (PyNum (PyInt 14));
     respiration_record (PyNum (PyInt 16))].
Proof.
  apply get_average_respiration_reads_one_key.
  constructor; [vm_compute; reflexivity|].
  constructor; [vm_compute; reflexivity|]. constructor.
Defined.
